(** * Volo prompt utilities: [questions.py]

    The module computes one process-wide constant, [BASE_URL], from the
    [GITHUB_RUN_NUMBER] environment variable when it is imported, holds the
    list [scope_files], and defines four prompt builders that substitute
    their argument into fixed text.

    Python values are embedded as follows.
    - [int] is [Z] (Python integers are unbounded).
    - [str] is [string], holding the UTF-8 bytes of the Python text; the
      text of the module is written verbatim.  Equality and substring
      questions are the same on the bytes and on the code points.
    - [os.environ] is a finite map from names to values.
    - A raised exception is the [Raise] case of [result].
    - What the interpreter brings along, its Unicode database and its limit
      on the digits of a decimal text, is a [Runtime].
    - The module's global namespace after import is the record [Globals.t];
      a function body that reads globals is a computation in [Py]. *)

From Stdlib Require Import ZArith NArith String Ascii List Bool DecimalString Lia.
From Stdlib Require Import DecimalPos DecimalN.
From stdpp Require Import gmap strings.
Import ListNotations.
Local Open Scope Z_scope.

(** ** Exceptions *)

Inductive exn : Type :=
  | ValueError
  | ZeroDivisionError.

Inductive result (A : Type) : Type :=
  | Ok (a : A)
  | Raise (e : exn).
Arguments Ok {A} a.
Arguments Raise {A} e.

#[export] Instance result_ret : MRet result := fun A a => Ok a.
#[export] Instance result_bind : MBind result := fun A B k r =>
  match r with
  | Ok a => k a
  | Raise e => Raise e
  end.

(** The values [get_cyclic_index] is called with: the run number arrives as
    a [str] from the environment; the description also speaks of integer
    run numbers. *)
Inductive pyval : Type :=
  | VInt (n : Z)
  | VStr (s : string).

(** ** The interpreter's data

    [int] on a text consults the Unicode database of the interpreter (which
    code points are white space, which are decimal digits and of what
    value) and [sys.get_int_max_str_digits()] ([0] for no limit; CPython
    before 3.11 has none, later ones default to 4300). *)
Class Runtime : Type := {
  Py_UNICODE_ISSPACE : N -> bool;
  Py_UNICODE_TODECIMAL : N -> option N;
  int_max_str_digits : nat
}.

(** ** Built-ins used by the module *)

Module Builtins.

Section WithRuntime.

Context {rt : Runtime}.

(** The double quote, as a character and as a one-character string. *)
Definition dquote : ascii := ascii_of_nat 34.
Definition DQUOTE : string := String dquote EmptyString.

Definition ord (c : ascii) : nat := nat_of_ascii c.

(** *** Code points

    The code points of a text, from its UTF-8 bytes: [pending] continuation
    bytes are still to come for the code point whose leading bits are [acc],
    and [low] is the least code point a sequence of that length encodes.  A
    byte that can neither start nor continue a sequence, a sequence that
    encodes less than [low] (an overlong form) or more than U+10FFFF: these
    are the encoding of no Python text, and are read as U+FFFD.  (A lone
    surrogate, which [os.environ] gives for an undecodable byte, has its
    three-byte form and is read as itself.) *)
Fixpoint code_points_from (s : string) (pending : nat) (acc low : N) : list N :=
  match s with
  | EmptyString =>
      match pending with
      | O => []
      | S _ => [0xFFFD%N]
      end
  | String b s' =>
      let n := N_of_ascii b in
      match pending with
      | O =>
          if (n <? 0x80)%N then n :: code_points_from s' 0 0 0
          else if (n <? 0xC0)%N then 0xFFFD%N :: code_points_from s' 0 0 0
          else if (n <? 0xE0)%N then code_points_from s' 1 (n - 0xC0) 0x80
          else if (n <? 0xF0)%N then code_points_from s' 2 (n - 0xE0) 0x800
          else if (n <? 0xF8)%N then code_points_from s' 3 (n - 0xF0) 0x10000
          else 0xFFFD%N :: code_points_from s' 0 0 0
      | S p =>
          if ((0x80 <=? n) && (n <? 0xC0))%N then
            let acc' := (acc * 64 + (n - 0x80))%N in
            match p with
            | O =>
                (if ((low <=? acc') && (acc' <=? 0x10FFFF))%N then acc' else 0xFFFD%N)
                  :: code_points_from s' 0 0 0
            | S _ => code_points_from s' p acc' low
            end
          else 0xFFFD%N :: code_points_from s' 0 0 0
      end
  end.

Definition code_points (s : string) : list N := code_points_from s 0 0 0.

(** *** [int(x)]

    [int] of an [int] is the number itself.  [int] of a [str] goes, as in
    CPython's [PyLong_FromUnicodeObject], in two steps.  First
    [_PyUnicode_TransformDecimalAndSpaceToASCII]: code points below 127 are
    kept, other white space becomes a space, other decimal digits become
    ['0'..'9'], and the first code point that is neither ends the text with
    a ['?'].  Then [PyLong_FromString] in base 10: leading white space, an
    optional sign, decimal digits in which single underscores may separate
    digits, trailing white space, and nothing else.  There white space is
    [Py_ISSPACE]: tab, line feed, vertical tab, form feed, carriage return
    and space. *)

Fixpoint transform_decimal_and_space (chars : list N) : string :=
  match chars with
  | [] => EmptyString
  | ch :: rest =>
      if (ch <? 127)%N then
        String (ascii_of_N ch) (transform_decimal_and_space rest)
      else if Py_UNICODE_ISSPACE ch then
        String " " (transform_decimal_and_space rest)
      else
        match Py_UNICODE_TODECIMAL ch with
        | Some d => String (ascii_of_N (48 + d)) (transform_decimal_and_space rest)
        | None => "?"
        end
  end.

Definition Py_ISSPACE (c : ascii) : bool :=
  ((9 <=? ord c) && (ord c <=? 13) || (ord c =? 32))%nat.

Definition digit_value (c : ascii) : option Z :=
  if ((48 <=? ord c) && (ord c <=? 57))%nat
  then Some (Z.of_nat (ord c) - 48)
  else None.

Fixpoint skip_spaces (s : string) : string :=
  match s with
  | String c s' => if Py_ISSPACE c then skip_spaces s' else s
  | EmptyString => EmptyString
  end.

(** The digit loop: [prev_underscore] records whether the previous character
    was an underscore (two in a row, or one at the end, are errors),
    [digits] counts the digits seen and [acc] is their value.  The result is
    the value, the digit count and the unread rest. *)
Fixpoint scan_digits (s : string) (prev_underscore : bool) (digits : nat)
    (acc : Z) : option (Z * nat * string) :=
  match s with
  | String c s' =>
      if Ascii.eqb c "_" then
        if prev_underscore then None
        else scan_digits s' true digits acc
      else
        match digit_value c with
        | Some d => scan_digits s' false (S digits) (10 * acc + d)
        | None => if prev_underscore then None else Some (acc, digits, s)
        end
  | EmptyString =>
      if prev_underscore then None else Some (acc, digits, EmptyString)
  end.

Definition take_sign (s : string) : bool * string :=
  match s with
  | String c s' =>
      if Ascii.eqb c "+" then (false, s')
      else if Ascii.eqb c "-" then (true, s')
      else (false, s)
  | EmptyString => (false, EmptyString)
  end.

Definition starts_with_underscore (s : string) : bool :=
  match s with
  | String c _ => Ascii.eqb c "_"
  | EmptyString => false
  end.

(** More than 640 digits, and more than the limit when there is one. *)
Definition too_many_digits (digits : nat) : bool :=
  ((640 <? digits) && (0 <? int_max_str_digits) && (int_max_str_digits <? digits))%nat.

(** [None] stands for the [ValueError] the function sets. *)
Definition PyLong_FromString (s : string) : option Z :=
  let '(negative, body) := take_sign (skip_spaces s) in
  if starts_with_underscore body then None
  else
    match scan_digits body false 0 0 with
    | Some (v, digits, rest) =>
        if too_many_digits digits then None
        else if (digits =? 0)%nat then None
        else
          match skip_spaces rest with
          | EmptyString => Some (if negative then - v else v)
          | String _ _ => None
          end
    | None => None
    end.

Definition PyLong_FromUnicodeObject (s : string) : option Z :=
  PyLong_FromString (transform_decimal_and_space (code_points s)).

Definition int (x : pyval) : result Z :=
  match x with
  | VInt n => Ok n
  | VStr s =>
      match PyLong_FromUnicodeObject s with
      | Some n => Ok n
      | None => Raise ValueError
      end
  end.

(** *** [a % b] on integers

    CPython takes the remainder of the truncating division and, when it is
    non-zero and its sign differs from the divisor's, adds the divisor. *)
Definition py_mod (a b : Z) : result Z :=
  if b =? 0 then Raise ZeroDivisionError
  else
    let r := Z.rem a b in
    if (r <? 0) && (0 <? b) || (0 <? r) && (b <? 0)
    then Ok (r + b)
    else Ok r.

(** *** [format(n, "03d")]

    Sign-aware zero padding to a minimum width of three characters. *)
Definition decimal (n : Z) : string :=
  NilZero.string_of_uint (N.to_uint (Z.to_N n)).

Fixpoint zeros (k : nat) : string :=
  match k with
  | O => EmptyString
  | S k' => String "0" (zeros k')
  end.

Definition format_03d (n : Z) : string :=
  let sign := if n <? 0 then "-" else "" in
  let digits := decimal (Z.abs n) in
  sign +:+ zeros (3 - String.length sign - String.length digits) +:+ digits.

(** *** [repr] of a [str] and [str] of a list

    [repr] picks the single quote unless the text contains one and no double
    quote; it escapes the chosen quote, the backslash and the control
    characters.  Bytes above 127 are copied: CPython escapes the
    non-printable code points among them, and none occurs in the list the
    module renders. *)
Fixpoint has_char (c : ascii) (s : string) : bool :=
  match s with
  | String c' s' => Ascii.eqb c c' || has_char c s'
  | EmptyString => false
  end.

Definition hex_digit (n : nat) : ascii :=
  ascii_of_nat (if (n <? 10)%nat then 48 + n else 87 + n).

Definition repr_char (quote c : ascii) : string :=
  if Ascii.eqb c quote || Ascii.eqb c "\" then String "\" (String c "")
  else if (ord c =? 9)%nat then "\t"
  else if (ord c =? 10)%nat then "\n"
  else if (ord c =? 13)%nat then "\r"
  else if ((ord c <? 32) || (ord c =? 127))%nat then
    "\x" +:+ String (hex_digit (ord c / 16)) (String (hex_digit (ord c mod 16)) "")
  else String c "".

Fixpoint repr_body (quote : ascii) (s : string) : string :=
  match s with
  | String c s' => repr_char quote c +:+ repr_body quote s'
  | EmptyString => EmptyString
  end.

Definition repr_str (s : string) : string :=
  let quote := if has_char "'" s && negb (has_char dquote s) then dquote else "'"%char in
  String quote (repr_body quote s +:+ String quote "").

Definition str_list (l : list string) : string :=
  "[" +:+ String.concat ", " (map repr_str l) +:+ "]".

End WithRuntime.

End Builtins.
Import Builtins.

(** ** The runtime of CPython 3.11 *)

(** The white-space code points above 126 of Unicode 14.0. *)
Definition unicode_14_spaces : list N := [
  0x85; 0xA0; 0x1680; 0x2000; 0x2001; 0x2002; 0x2003; 0x2004;
  0x2005; 0x2006; 0x2007; 0x2008; 0x2009; 0x200A; 0x2028; 0x2029;
  0x202F; 0x205F; 0x3000
]%N.

(** The decimal digits above 126 of Unicode 14.0 come in runs of ten
    consecutive code points with the values 0 to 9; this is the first code
    point of each run. *)
Definition unicode_14_digit_runs : list N := [
  0x660; 0x6F0; 0x7C0; 0x966; 0x9E6; 0xA66; 0xAE6; 0xB66;
  0xBE6; 0xC66; 0xCE6; 0xD66; 0xDE6; 0xE50; 0xED0; 0xF20;
  0x1040; 0x1090; 0x17E0; 0x1810; 0x1946; 0x19D0; 0x1A80; 0x1A90;
  0x1B50; 0x1BB0; 0x1C40; 0x1C50; 0xA620; 0xA8D0; 0xA900; 0xA9D0;
  0xA9F0; 0xAA50; 0xABF0; 0xFF10; 0x104A0; 0x10D30; 0x11066; 0x110F0;
  0x11136; 0x111D0; 0x112F0; 0x11450; 0x114D0; 0x11650; 0x116C0; 0x11730;
  0x118E0; 0x11950; 0x11C50; 0x11D50; 0x11DA0; 0x16A60; 0x16AC0; 0x16B50;
  0x1D7CE; 0x1D7D8; 0x1D7E2; 0x1D7EC; 0x1D7F6; 0x1E140; 0x1E2F0; 0x1E950;
  0x1FBF0
]%N.

Definition digit_in_run (ch start : N) : bool := ((start <=? ch) && (ch <? start + 10))%N.

Definition cpython_3_11 : Runtime := {|
  Py_UNICODE_ISSPACE ch := existsb (N.eqb ch) unicode_14_spaces;
  Py_UNICODE_TODECIMAL ch :=
    match find (digit_in_run ch) unicode_14_digit_runs with
    | Some start => Some (ch - start)%N
    | None => None
    end;
  int_max_str_digits := 4300
|}.

(** ** Module-level constants (lines 6-8) *)

Definition MAX_REPO : Z := 30.
Definition SOURCE_REPO : string := "Sui-Volo/volo-smart-contracts".
Definition REPO_NAME : string := "volo-smart-contracts".

(** ** [get_cyclic_index] (lines 12-14) *)

Definition get_cyclic_index {rt : Runtime} (run_number : pyval) (max_index : Z)
    : result Z :=
  n ← int run_number;
  m ← py_mod (n - 1) max_index;
  mret (m + 1).

(** The call without the second argument takes the default [max_index=100]. *)
Definition get_cyclic_index_default {rt : Runtime} (run_number : pyval) : result Z :=
  get_cyclic_index run_number 100.

(** ** [BASE_URL] (lines 17-24), as a function of the run-number text *)

Definition BASE_URL {rt : Runtime} (run_number : string) : result string :=
  if String.eqb run_number "0" then
    mret ("https://deepwiki.com/" +:+ SOURCE_REPO)
  else
    run_index ← get_cyclic_index (VStr run_number) MAX_REPO;
    let repo_number := format_03d run_index in
    mret ("https://deepwiki.com/grass-dev-pa/" +:+ REPO_NAME +:+ "-" +:+ repo_number).

(** ** The texts (lines 26-869)

    The list and the fixed pieces of the four f-strings, character for
    character.  A piece that has double quotes in it is written as the list
    of its parts between them, joined by [DQUOTE]. *)

(** [scope_files] (lines 26-272): the list literal, with its 242 entries
    in source order; the block of 121 paths is written twice in the source. *)
Definition scope_files : list string := [
  "liquid_staking/sources/stake_pool.move";
  "liquid_staking/sources/manage.move";
  "liquid_staking/sources/fee_config.move";
  "liquid_staking/sources/volo_v1/native_pool.move";
  "liquid_staking/sources/volo_v1/validator_set.move";
  "liquid_staking/sources/volo_v1/ownership.move";
  "liquid_staking/sources/volo_v1/unstake_ticket.move";
  "liquid_staking/sources/volo_v1/math.move";
  "liquid_staking/sources/cert.move";
  "liquid_staking/sources/validator_pool.move";
  "liquid_staking/sources/migration/migrate.move";
  "volo-vault/sources/utils.move";
  "volo-vault/sources/volo_vault.move";
  "volo-vault/sources/manage.move";
  "volo-vault/sources/operation.move";
  "volo-vault/sources/user_entry.move";
  "volo-vault/sources/vault_receipt_info.move";
  "volo-vault/sources/receipt.move";
  "volo-vault/sources/requests/withdraw_request.move";
  "volo-vault/sources/requests/deposit_request.move";
  "volo-vault/sources/adaptors/momentum.adaptor.move";
  "volo-vault/sources/adaptors/cetus_adaptor.move";
  "volo-vault/sources/adaptors/suilend_adaptor.move";
  "volo-vault/sources/adaptors/receipt_adaptor.move";
  "volo-vault/sources/adaptors/navi_adaptor.move";
  "volo-vault/sources/reward_manager.move";
  "volo-vault/sources/oracle.move";
  "volo-vault/health-limiter/sources/adaptors/navi_limiter.move";
  "volo-vault/local_dependencies/switchboard_sui/on_demand/sources/utils/decimal.move";
  "volo-vault/local_dependencies/switchboard_sui/on_demand/sources/utils/hash.move";
  "volo-vault/local_dependencies/switchboard_sui/on_demand/sources/schemas/queue.move";
  "volo-vault/local_dependencies/switchboard_sui/on_demand/sources/schemas/aggregator.move";
  "volo-vault/local_dependencies/switchboard_sui/on_demand/sources/schemas/oracle.move";
  "volo-vault/local_dependencies/switchboard_sui/on_demand/sources/actions/aggregator/aggregator_set_authority_action.move";
  "volo-vault/local_dependencies/switchboard_sui/on_demand/sources/actions/aggregator/aggregator_init_action.move";
  "volo-vault/local_dependencies/switchboard_sui/on_demand/sources/actions/aggregator/aggregator_set_configs_action.move";
  "volo-vault/local_dependencies/switchboard_sui/on_demand/sources/actions/aggregator/aggregator_delete_action.move";
  "volo-vault/local_dependencies/switchboard_sui/on_demand/sources/actions/aggregator/aggregator_submit_result_action.move";
  "volo-vault/local_dependencies/switchboard_sui/on_demand/sources/actions/oracle/oracle_init_action.move";
  "volo-vault/local_dependencies/switchboard_sui/on_demand/sources/actions/oracle/oracle_attest_action.move";
  "volo-vault/local_dependencies/switchboard_sui/on_demand/sources/actions/state/set_guardian_queue_id_action.move";
  "volo-vault/local_dependencies/switchboard_sui/on_demand/sources/actions/state/set_package_id_action.move";
  "volo-vault/local_dependencies/switchboard_sui/on_demand/sources/actions/state/set_oracle_queue_id_action.move";
  "volo-vault/local_dependencies/switchboard_sui/on_demand/sources/actions/queue/queue_set_authority_action.move";
  "volo-vault/local_dependencies/switchboard_sui/on_demand/sources/actions/queue/queue_set_configs_action.move";
  "volo-vault/local_dependencies/switchboard_sui/on_demand/sources/actions/queue/queue_add_fee_coin_action.move";
  "volo-vault/local_dependencies/switchboard_sui/on_demand/sources/actions/queue/oracle_queue_init_action.move";
  "volo-vault/local_dependencies/switchboard_sui/on_demand/sources/actions/queue/queue_remove_fee_coin_action.move";
  "volo-vault/local_dependencies/switchboard_sui/on_demand/sources/actions/queue/queue_override_oracle_action.move";
  "volo-vault/local_dependencies/switchboard_sui/on_demand/sources/actions/queue/guardian_queue_init_action.move";
  "volo-vault/local_dependencies/switchboard_sui/on_demand/sources/on_demand.move";
  "volo-vault/local_dependencies/mmt_v3/sources/global_config.move";
  "volo-vault/local_dependencies/mmt_v3/sources/pool.move";
  "volo-vault/local_dependencies/mmt_v3/sources/tick.move";
  "volo-vault/local_dependencies/mmt_v3/sources/liquidity.move";
  "volo-vault/local_dependencies/mmt_v3/sources/i128.move";
  "volo-vault/local_dependencies/mmt_v3/sources/collect.move";
  "volo-vault/local_dependencies/mmt_v3/sources/utils/utils.move";
  "volo-vault/local_dependencies/mmt_v3/sources/utils/liquidity_math.move";
  "volo-vault/local_dependencies/mmt_v3/sources/utils/sqrt_price_math.move";
  "volo-vault/local_dependencies/mmt_v3/sources/utils/tick_math.move";
  "volo-vault/local_dependencies/mmt_v3/sources/utils/constants.move";
  "volo-vault/local_dependencies/mmt_v3/sources/utils/swap_math.move";
  "volo-vault/local_dependencies/mmt_v3/sources/utils/comparator.move";
  "volo-vault/local_dependencies/mmt_v3/sources/utils/bit_math.move";
  "volo-vault/local_dependencies/mmt_v3/sources/utils/oracle.move";
  "volo-vault/local_dependencies/mmt_v3/sources/version.move";
  "volo-vault/local_dependencies/mmt_v3/sources/i64.move";
  "volo-vault/local_dependencies/mmt_v3/sources/i32.move";
  "volo-vault/local_dependencies/mmt_v3/sources/position.move";
  "volo-vault/local_dependencies/mmt_v3/sources/create_pool.move";
  "volo-vault/local_dependencies/mmt_v3/sources/trade.move";
  "volo-vault/local_dependencies/protocol/lending_core/sources/account.move";
  "volo-vault/local_dependencies/protocol/lending_core/sources/lending.move";
  "volo-vault/local_dependencies/protocol/lending_core/sources/logic.move";
  "volo-vault/local_dependencies/protocol/lending_core/sources/manage.move";
  "volo-vault/local_dependencies/protocol/lending_core/sources/validation.move";
  "volo-vault/local_dependencies/protocol/lending_core/sources/pool.move";
  "volo-vault/local_dependencies/protocol/lending_core/sources/incentive.move";
  "volo-vault/local_dependencies/protocol/lending_core/sources/storage.move";
  "volo-vault/local_dependencies/protocol/lending_core/sources/error.move";
  "volo-vault/local_dependencies/protocol/lending_core/sources/version.move";
  "volo-vault/local_dependencies/protocol/lending_core/sources/constants.move";
  "volo-vault/local_dependencies/protocol/lending_core/sources/dynamic_calculator.move";
  "volo-vault/local_dependencies/protocol/lending_core/sources/incentive_v3.move";
  "volo-vault/local_dependencies/protocol/lending_core/sources/calculator.move";
  "volo-vault/local_dependencies/protocol/lending_core/sources/incentive_v2.move";
  "volo-vault/local_dependencies/protocol/lending_core/sources/flash_loan.move";
  "volo-vault/local_dependencies/protocol/lending_ui/sources/incentive.move";
  "volo-vault/local_dependencies/protocol/lending_ui/sources/calculate.move";
  "volo-vault/local_dependencies/protocol/lending_ui/sources/getter.move";
  "volo-vault/local_dependencies/protocol/lending_ui/sources/incentive_v3.move";
  "volo-vault/local_dependencies/protocol/oracle/sources/oracle_pro.move";
  "volo-vault/local_dependencies/protocol/oracle/sources/oracle_manage.move";
  "volo-vault/local_dependencies/protocol/oracle/sources/oracle_error.move";
  "volo-vault/local_dependencies/protocol/oracle/sources/adaptor_pyth.move";
  "volo-vault/local_dependencies/protocol/oracle/sources/oracle_provider.move";
  "volo-vault/local_dependencies/protocol/oracle/sources/oracle_dynamic_getter.move";
  "volo-vault/local_dependencies/protocol/oracle/sources/strategy.move";
  "volo-vault/local_dependencies/protocol/oracle/sources/oracle_utils.move";
  "volo-vault/local_dependencies/protocol/oracle/sources/config.move";
  "volo-vault/local_dependencies/protocol/oracle/sources/oracle_version.move";
  "volo-vault/local_dependencies/protocol/oracle/sources/adaptor_supra.move";
  "volo-vault/local_dependencies/protocol/oracle/sources/oracle.move";
  "volo-vault/local_dependencies/protocol/oracle/sources/oracle_constants.move";
  "volo-vault/local_dependencies/protocol/utils/sources/utils.move";
  "volo-vault/local_dependencies/protocol/math/sources/ray_math.move";
  "volo-vault/local_dependencies/protocol/math/sources/safe_math.move";
  "volo-vault/local_dependencies/suilend_d/sprungsui/sources/sprungsui.move";
  "volo-vault/local_dependencies/suilend_d/suilend/sources/staker.move";
  "volo-vault/local_dependencies/suilend_d/suilend/sources/liquidity_mining.move";
  "volo-vault/local_dependencies/suilend_d/suilend/sources/decimal.move";
  "volo-vault/local_dependencies/suilend_d/suilend/sources/reserve_config.move";
  "volo-vault/local_dependencies/suilend_d/suilend/sources/oracles.move";
  "volo-vault/local_dependencies/suilend_d/suilend/sources/rate_limiter.move";
  "volo-vault/local_dependencies/suilend_d/suilend/sources/obligation.move";
  "volo-vault/local_dependencies/suilend_d/suilend/sources/cell.move";
  "volo-vault/local_dependencies/suilend_d/suilend/sources/reserve.move";
  "volo-vault/local_dependencies/suilend_d/suilend/sources/lending_market_registry.move";
  "volo-vault/local_dependencies/suilend_d/suilend/sources/lending_market.move";
  "volo-vault/local_dependencies/suilend_d/suilend/sources/suilend.move";

  "liquid_staking/sources/stake_pool.move";
  "liquid_staking/sources/manage.move";
  "liquid_staking/sources/fee_config.move";
  "liquid_staking/sources/volo_v1/native_pool.move";
  "liquid_staking/sources/volo_v1/validator_set.move";
  "liquid_staking/sources/volo_v1/ownership.move";
  "liquid_staking/sources/volo_v1/unstake_ticket.move";
  "liquid_staking/sources/volo_v1/math.move";
  "liquid_staking/sources/cert.move";
  "liquid_staking/sources/validator_pool.move";
  "liquid_staking/sources/migration/migrate.move";
  "volo-vault/sources/utils.move";
  "volo-vault/sources/volo_vault.move";
  "volo-vault/sources/manage.move";
  "volo-vault/sources/operation.move";
  "volo-vault/sources/user_entry.move";
  "volo-vault/sources/vault_receipt_info.move";
  "volo-vault/sources/receipt.move";
  "volo-vault/sources/requests/withdraw_request.move";
  "volo-vault/sources/requests/deposit_request.move";
  "volo-vault/sources/adaptors/momentum.adaptor.move";
  "volo-vault/sources/adaptors/cetus_adaptor.move";
  "volo-vault/sources/adaptors/suilend_adaptor.move";
  "volo-vault/sources/adaptors/receipt_adaptor.move";
  "volo-vault/sources/adaptors/navi_adaptor.move";
  "volo-vault/sources/reward_manager.move";
  "volo-vault/sources/oracle.move";
  "volo-vault/health-limiter/sources/adaptors/navi_limiter.move";
  "volo-vault/local_dependencies/switchboard_sui/on_demand/sources/utils/decimal.move";
  "volo-vault/local_dependencies/switchboard_sui/on_demand/sources/utils/hash.move";
  "volo-vault/local_dependencies/switchboard_sui/on_demand/sources/schemas/queue.move";
  "volo-vault/local_dependencies/switchboard_sui/on_demand/sources/schemas/aggregator.move";
  "volo-vault/local_dependencies/switchboard_sui/on_demand/sources/schemas/oracle.move";
  "volo-vault/local_dependencies/switchboard_sui/on_demand/sources/actions/aggregator/aggregator_set_authority_action.move";
  "volo-vault/local_dependencies/switchboard_sui/on_demand/sources/actions/aggregator/aggregator_init_action.move";
  "volo-vault/local_dependencies/switchboard_sui/on_demand/sources/actions/aggregator/aggregator_set_configs_action.move";
  "volo-vault/local_dependencies/switchboard_sui/on_demand/sources/actions/aggregator/aggregator_delete_action.move";
  "volo-vault/local_dependencies/switchboard_sui/on_demand/sources/actions/aggregator/aggregator_submit_result_action.move";
  "volo-vault/local_dependencies/switchboard_sui/on_demand/sources/actions/oracle/oracle_init_action.move";
  "volo-vault/local_dependencies/switchboard_sui/on_demand/sources/actions/oracle/oracle_attest_action.move";
  "volo-vault/local_dependencies/switchboard_sui/on_demand/sources/actions/state/set_guardian_queue_id_action.move";
  "volo-vault/local_dependencies/switchboard_sui/on_demand/sources/actions/state/set_package_id_action.move";
  "volo-vault/local_dependencies/switchboard_sui/on_demand/sources/actions/state/set_oracle_queue_id_action.move";
  "volo-vault/local_dependencies/switchboard_sui/on_demand/sources/actions/queue/queue_set_authority_action.move";
  "volo-vault/local_dependencies/switchboard_sui/on_demand/sources/actions/queue/queue_set_configs_action.move";
  "volo-vault/local_dependencies/switchboard_sui/on_demand/sources/actions/queue/queue_add_fee_coin_action.move";
  "volo-vault/local_dependencies/switchboard_sui/on_demand/sources/actions/queue/oracle_queue_init_action.move";
  "volo-vault/local_dependencies/switchboard_sui/on_demand/sources/actions/queue/queue_remove_fee_coin_action.move";
  "volo-vault/local_dependencies/switchboard_sui/on_demand/sources/actions/queue/queue_override_oracle_action.move";
  "volo-vault/local_dependencies/switchboard_sui/on_demand/sources/actions/queue/guardian_queue_init_action.move";
  "volo-vault/local_dependencies/switchboard_sui/on_demand/sources/on_demand.move";
  "volo-vault/local_dependencies/mmt_v3/sources/global_config.move";
  "volo-vault/local_dependencies/mmt_v3/sources/pool.move";
  "volo-vault/local_dependencies/mmt_v3/sources/tick.move";
  "volo-vault/local_dependencies/mmt_v3/sources/liquidity.move";
  "volo-vault/local_dependencies/mmt_v3/sources/i128.move";
  "volo-vault/local_dependencies/mmt_v3/sources/collect.move";
  "volo-vault/local_dependencies/mmt_v3/sources/utils/utils.move";
  "volo-vault/local_dependencies/mmt_v3/sources/utils/liquidity_math.move";
  "volo-vault/local_dependencies/mmt_v3/sources/utils/sqrt_price_math.move";
  "volo-vault/local_dependencies/mmt_v3/sources/utils/tick_math.move";
  "volo-vault/local_dependencies/mmt_v3/sources/utils/constants.move";
  "volo-vault/local_dependencies/mmt_v3/sources/utils/swap_math.move";
  "volo-vault/local_dependencies/mmt_v3/sources/utils/comparator.move";
  "volo-vault/local_dependencies/mmt_v3/sources/utils/bit_math.move";
  "volo-vault/local_dependencies/mmt_v3/sources/utils/oracle.move";
  "volo-vault/local_dependencies/mmt_v3/sources/version.move";
  "volo-vault/local_dependencies/mmt_v3/sources/i64.move";
  "volo-vault/local_dependencies/mmt_v3/sources/i32.move";
  "volo-vault/local_dependencies/mmt_v3/sources/position.move";
  "volo-vault/local_dependencies/mmt_v3/sources/create_pool.move";
  "volo-vault/local_dependencies/mmt_v3/sources/trade.move";
  "volo-vault/local_dependencies/protocol/lending_core/sources/account.move";
  "volo-vault/local_dependencies/protocol/lending_core/sources/lending.move";
  "volo-vault/local_dependencies/protocol/lending_core/sources/logic.move";
  "volo-vault/local_dependencies/protocol/lending_core/sources/manage.move";
  "volo-vault/local_dependencies/protocol/lending_core/sources/validation.move";
  "volo-vault/local_dependencies/protocol/lending_core/sources/pool.move";
  "volo-vault/local_dependencies/protocol/lending_core/sources/incentive.move";
  "volo-vault/local_dependencies/protocol/lending_core/sources/storage.move";
  "volo-vault/local_dependencies/protocol/lending_core/sources/error.move";
  "volo-vault/local_dependencies/protocol/lending_core/sources/version.move";
  "volo-vault/local_dependencies/protocol/lending_core/sources/constants.move";
  "volo-vault/local_dependencies/protocol/lending_core/sources/dynamic_calculator.move";
  "volo-vault/local_dependencies/protocol/lending_core/sources/incentive_v3.move";
  "volo-vault/local_dependencies/protocol/lending_core/sources/calculator.move";
  "volo-vault/local_dependencies/protocol/lending_core/sources/incentive_v2.move";
  "volo-vault/local_dependencies/protocol/lending_core/sources/flash_loan.move";
  "volo-vault/local_dependencies/protocol/lending_ui/sources/incentive.move";
  "volo-vault/local_dependencies/protocol/lending_ui/sources/calculate.move";
  "volo-vault/local_dependencies/protocol/lending_ui/sources/getter.move";
  "volo-vault/local_dependencies/protocol/lending_ui/sources/incentive_v3.move";
  "volo-vault/local_dependencies/protocol/oracle/sources/oracle_pro.move";
  "volo-vault/local_dependencies/protocol/oracle/sources/oracle_manage.move";
  "volo-vault/local_dependencies/protocol/oracle/sources/oracle_error.move";
  "volo-vault/local_dependencies/protocol/oracle/sources/adaptor_pyth.move";
  "volo-vault/local_dependencies/protocol/oracle/sources/oracle_provider.move";
  "volo-vault/local_dependencies/protocol/oracle/sources/oracle_dynamic_getter.move";
  "volo-vault/local_dependencies/protocol/oracle/sources/strategy.move";
  "volo-vault/local_dependencies/protocol/oracle/sources/oracle_utils.move";
  "volo-vault/local_dependencies/protocol/oracle/sources/config.move";
  "volo-vault/local_dependencies/protocol/oracle/sources/oracle_version.move";
  "volo-vault/local_dependencies/protocol/oracle/sources/adaptor_supra.move";
  "volo-vault/local_dependencies/protocol/oracle/sources/oracle.move";
  "volo-vault/local_dependencies/protocol/oracle/sources/oracle_constants.move";
  "volo-vault/local_dependencies/protocol/utils/sources/utils.move";
  "volo-vault/local_dependencies/protocol/math/sources/ray_math.move";
  "volo-vault/local_dependencies/protocol/math/sources/safe_math.move";
  "volo-vault/local_dependencies/suilend_d/sprungsui/sources/sprungsui.move";
  "volo-vault/local_dependencies/suilend_d/suilend/sources/staker.move";
  "volo-vault/local_dependencies/suilend_d/suilend/sources/liquidity_mining.move";
  "volo-vault/local_dependencies/suilend_d/suilend/sources/decimal.move";
  "volo-vault/local_dependencies/suilend_d/suilend/sources/reserve_config.move";
  "volo-vault/local_dependencies/suilend_d/suilend/sources/oracles.move";
  "volo-vault/local_dependencies/suilend_d/suilend/sources/rate_limiter.move";
  "volo-vault/local_dependencies/suilend_d/suilend/sources/obligation.move";
  "volo-vault/local_dependencies/suilend_d/suilend/sources/cell.move";
  "volo-vault/local_dependencies/suilend_d/suilend/sources/reserve.move";
  "volo-vault/local_dependencies/suilend_d/suilend/sources/lending_market_registry.move";
  "volo-vault/local_dependencies/suilend_d/suilend/sources/lending_market.move";
  "volo-vault/local_dependencies/suilend_d/suilend/sources/suilend.move"
].

(** Fixed text of the f-string of [question_generator] (lines 286-370), cut at its
    replacement fields. *)
Definition question_generator_text0 : string :=
  "
# **Generate 150+ Targeted Security Audit Questions for Volo Protocol (Liquid Staking LST + Volo Vault on Sui)**

## **Context**

The target project is **Volo** on **Sui Move**, composed of:
- **Liquid Staking**: stake/unstake SUI for LST, fee configuration (bps caps), epoch rollover rewards, boosted balances, validator pool management, validator weights, pause flag, operator/admin caps, delegation to specific validators, migration path from volo_v1, request/extra_fields bag storage.
- **Volo Vault**: multi-asset vault with request buffers for deposits/withdrawals, share accounting, fee caps, locking windows, loss tolerance per epoch, operation status gating (normal/during operation/disabled), operator freeze map, reward manager + vault receipts alignment, oracle price config, adaptors to external protocols (Navi lending_core, Suilend, Cetus CLMM, Momentum), DeFi asset borrow/return tracking, value update checks, health-limiter hooks.
- **Health Limiter**: adaptor checking Navi health factor before operations using oracle prices, emitting verification events.
- **Local Dependencies**: Switchboard on-demand oracle actions, MMT v3 AMM math, protocol lending_core/ui/oracle/math/utils, Suilend modules, ensuring cross-module integrity.

## **Scope**

**CRITICAL TARGET FILE**: Focus question generation EXCLUSIVELY on `".

Definition question_generator_text1 : string :=
  "`

Note: Questions must be generated from **`".

Definition question_generator_text2 : string :=
  String.concat DQUOTE [
"`** only. If you cannot generate 150 questions from this single file, generate as many high-quality questions as the file allows.  
If a file is more than a thousand lines, generate up to 300+ questions.  
Always generate as many strong questions as possible and do not return empty results.

## **Core Volo Components** (for reference only)

```python
core_components = [
    ";
"liquid_staking/sources/stake_pool.move";
",
    ";
"liquid_staking/sources/manage.move";
",
    ";
"liquid_staking/sources/fee_config.move";
",
    ";
"liquid_staking/sources/validator_pool.move";
",
    ";
"liquid_staking/sources/volo_v1/*";
",
    ";
"volo-vault/sources/*.move";
",
    ";
"volo-vault/sources/adaptors/*.move";
",
    ";
"volo-vault/sources/requests/*.move";
",
    ";
"volo-vault/health-limiter/sources/adaptors/navi_limiter.move";
",
    ";
"volo-vault/local_dependencies/**/sources/*.move";
",
]
```

## **Critical Invariant Areas**

- Auth/roles: admin vs operator caps, paused flag, operator freeze list, vault status gating (normal vs during operation vs disabled), migration restrictions, public share/transfer paths.
- Share/accounting: deposit/withdraw request buffers, share mint/burn math, receipt/vault ID matching, expected_shares/expected_amount slippage checks, fee caps vs defaults, boosted balances and accrued reward fees.
- Value & oracles: Switchboard on-demand aggregator correctness, price decimals (1e9/1e18) conversions, staleness tracking (`assets_value_updated`), tolerance reset per epoch, loss_tolerance enforcement.
- External adaptors: borrow/return of DeFi assets (Navi account caps, Cetus positions, Suilend obligations, Momentum positions, receipts) must be balanced; type/ID parsing via `vault_utils::parse_key`; no missing asset return; health factor checks via limiter.
- Operations lifecycle: pre/post op status toggling, total_usd_value snapshots, asset IDs/types alignment, op_value_update gating, locking windows for withdraw/cancel, request cancel timing.
- LST specifics: min stake amount, ratio math, supply zero checks, delegation path, validator weight updates, fee update bounds, pause enforcement.

## **In-Scope Vulnerability Categories**

- Authorization or pause/status bypass allowing restricted actions (mint, stake/unstake, op start/end, config update).
- Accounting/fee/ratio errors leading to share inflation/deflation, fee under/over-collection, loss tolerance bypass, or boosted reward mis-accounting.
- Oracle/value update issues causing incorrect USD valuations, stale price acceptance, overflow/underflow in decimal conversions.
- Asset custody/return failures in operations or adaptors (assets not returned, wrong type IDs, mismatched vault IDs).
- Locking/withdrawal window bypass, request buffer corruption, receipt mismatch enabling theft or denial of funds.
- External protocol misuse (health factor not enforced, missing approvals) enabling unsafe leverage or DoS.

## **Question Format Template**

Each question MUST follow this Python list format:

```python
questions = [
    ";
"[File: "].

Definition question_generator_text3 : string :=
  String.concat DQUOTE [
"] [Function: functionName()] [Vulnerability Type] Specific exploit scenario with preconditions, violated invariant, attacker action, and concrete impact? (High)";
",
]
```

## **Output Requirements**

Generate questions focusing EXCLUSIVELY on `"].

Definition question_generator_text4 : string :=
  "` that:

- Reference real functions/methods/logic blocks in `".

Definition question_generator_text5 : string :=
  "`
- Include concrete exploit paths, not generic checks
- Tie each question to math logic, business logic, scenario validity, or invariant break
- Prioritize questions likely to result in **valid vulnerabilities**
- Avoid low-signal or non-exploitable questions
- Include severity `(Critical/High/Medium/Low)` in each question
- Use exact Python list format

## **Target Question Count**

- Small files: 80-150 questions when possible
- Medium files: 150+ questions
- Very large files (>1000 lines): 300+ questions
- If code size limits quantity, output as many quality questions as possible

Begin generating questions for `".

Definition question_generator_text6 : string :=
  "` now.
".

(** Fixed text of the f-string of [validation_format] (lines 384-550), cut at its
    replacement fields. *)
Definition validation_format_text0 : string :=
  "
You are an **Elite Volo Protocol Security Judge** with deep expertise in Sui Move liquid staking, vault accounting, oracle/value updates, external adaptor integrations (Navi/Cetus/Suilend/Momentum), and health-factor enforcement.

Your ONLY task is **ruthless technical validation** of the claim below.

Note: Trusted roles include Volo admin/operator caps, package publishing authorities, and honest oracle authorities for Switchboard; assume these roles are honest unless the claim is about mis-scoped privileges.

**SECURITY CLAIM TO VALIDATE:**
".

Definition validation_format_text1 : string :=
  "

================================================================================
## **VOLO VALIDATION FRAMEWORK**

### **PHASE 1: IMMEDIATE DISQUALIFICATION CHECKS**
Reject immediately (`#NoVulnerability`) if **ANY** apply.

Note before a vulnerability can be considered valid it must have BOTH:
1) valid impact to protocol/users/funds/state integrity
2) valid likelihood / feasible trigger path

If it cannot be triggered in a realistic way, it is invalid (except pure logic invariant break that is directly reachable).

Return MUST be either:
- the original report (if valid)
- `#NoVulnerability` (if invalid)

Any vuln with no valid impact to the protocol is invalid.
Any scenario that needs attacker to deploy own contract and only self-harm is invalid.
Dark-forest user mistakes are not protocol vulnerabilities.

#### **A. Scope Violations**
- ❌ Affects files not in production source scope
- ❌ Targets tests, mocks, examples, scripts, docs, comments, style-only issues
- ❌ Claims on off-chain tooling instead of on-chain protocol logic
- ❌ Issues that only exist in test-only behavior

**In-Scope Volo smart contract files**
```python
scope_files = ".

Definition validation_format_text2 : string :=
  "
```

#### **B. Threat Model Violations**
- ❌ Requires compromised protocol admin/operator/developer/private keys
- ❌ Assumes malicious Sui validators / consensus break / chain reorg control
- ❌ Depends on breaking cryptographic primitives or Sui runtime internals
- ❌ Relies on phishing, social engineering, user wallet compromise
- ❌ Pure network-layer attacks (DDoS/BGP/DNS/etc.) outside protocol logic

#### **C. Known/Non-Security Exclusions**
- ❌ Already known/fixed issues without current exploit path
- ❌ Gas/performance/style improvements without concrete security impact
- ❌ Logging/events/documentation-only suggestions
- ❌ Theoretical concerns without executable path and state impact
- ❌ Precision differences with negligible or non-exploitable effect

#### **D. Invalid Exploit Scenarios**
- ❌ Impossible inputs or invalid transaction semantics
- ❌ Needs calling non-reachable internal-only paths
- ❌ Requires unrealistic privileges not available to attacker
- ❌ Requires self-loss with no protocol invariant break
- ❌ Cannot produce measurable impact on balances, funds destination, ownership, or authorization

### **PHASE 2: VOLO DEEP CODE VALIDATION**

#### **Step 1: Trace Complete Execution Path**
For each claim, reconstruct:
1. Entry point (public/entry Move function)
2. Full call chain
3. Pre-state (vault status, pause flag, fee bounds, locking windows, loss tolerance/epoch, oracle update timestamps, receipt/vault match, health factor thresholds, adaptor assets present)
4. State transitions at each step
5. Existing guards/checks (cap/auth checks, paused/status checks, fee/amount bounds, share math, price decimals, tolerance enforcement, asset return checks, locking windows, health limiter)
6. Final post-state and violated invariant

If any path step is missing or non-reachable, reject as `#NoVulnerability`.

#### **Step 2: Evidence Requirements**
A valid report must provide:
- Exact file path(s) and relevant line references
- Concrete vulnerable logic and bypass explanation
- Triggerable transaction flow with realistic attacker actions
- Why protections do not stop it
- Quantified impact (fund loss, share dilution, receipt/vault desync, unauthorized admin/operator action)

Red flags -> invalid:
- “might be vulnerable” without exploit sequence
- no clear invariant broken
- no impact beyond revert/no-op
- assumptions that contradict Sui Move semantics

#### **Step 3: VOLO-Specific Validity Checks**
Validate claims against these invariant domains:

1. **Config & Auth**
- Admin/operator cap checks; pause flag; vault status (normal/during operation/disabled); operator freeze map; migration rules.

2. **Staking / Vault Requests**
- Stake/unstake min amounts; share mint/burn math; boosted balances; request buffers; locking windows; cancel timeouts; receipt/vault ID alignment; expected_shares/expected_amount honored.

3. **Operations & Asset Custody**
- pre_vault_check/post operation status; all borrowed DeFi assets returned; asset ID/type mapping; total_usd_value/tolerance checks; op_value_update gating; loss_tolerance enforcement.

4. **Oracle & Valuation**
- Switchboard on-demand price integrity; decimal conversions (1e9/1e18); staleness via `assets_value_updated`; USD value aggregation; overflow/underflow boundaries.

5. **External Integrations**
- Health limiter enforced before risky ops; adaptors correctly handle account caps/positions/obligations; no unauthorized transfer or leakage.

### **PHASE 3: IMPACT + LIKELIHOOD JUDGMENT**

A vulnerability is valid ONLY if BOTH are true:

1. **Impact is valid**
- Direct or indirect fund loss/misdirection (vault principal, LST fees, oracle collateral)
- Unauthorized ownership/receipt/vault record corruption or asset theft
- Pricing/accounting corruption (share inflation/deflation, fee bypass, loss tolerance bypass)
- Unauthorized config/auth/status change (pause/disable, operator freeze, caps)
- High-confidence protocol DoS via valid calls (vault stuck during operation, request buffer lock, oracle dependence)

2. **Likelihood is valid**
- Real attacker can execute via public interfaces
- No privileged assumptions beyond noted caps/roles
- Reasonable preconditions
- Reproducible path under normal chain rules

If either impact or likelihood fails -> `#NoVulnerability`.

### **DECISION OUTPUT (STRICT)**
           
---            
            
**AUDIT REPORT FORMAT** (if vulnerability found):            
            
Audit Report            
            
## Title 
The Title Of the Report 

## Summary
A short summary of the issue, keep it brief.

## Finding Description
A more detailed explanation of the issue. Poorly written or incorrect findings may result in rejection and a decrease of reputation score.

Describe which security guarantees it breaks and how it breaks them. If this bug does not automatically happen, showcase how a malicious input would propagate through the system to the part of the code where the issue occurs.

## Impact Explanation
Elaborate on why you've chosen a particular impact assessment.

## Likelihood Explanation
Explain how likely this is to occur and why.


## Recommendation
How can the issue be fixed or solved. Preferably, you can also add a snippet of the fixed code here.


## Proof of Concept
Note very important the poc must have a valid test that runs just one function that proove the vuln 
  **Remember**: False positives harm credibility more than missed findings. Assume claims are invalid until overwhelming evidence proves otherwise.    
    
**Now perform STRICT validation of the claim above.**    
    
**Output ONLY:**    
- A full audit report (if genuinely valid after passing **all** checks above) following the specified format    
- `#NoVulnerability found for this question.` (if **any** check fails) very important    
- Note if u cant validate the claim or dont understand just send #NoVulnerability    
- Only show full report when u know this is actually and truly a  valid vulnerability ".

(** Fixed text of the f-string of [audit_format] (lines 565-725), cut at its
    replacement fields. *)
Definition audit_format_text0 : string :=
  "# VOLO PROTOCOL SECURITY AUDIT PROMPT

## Security Question to Investigate:
".

Definition audit_format_text1 : string :=
  String.concat DQUOTE [
"

## Codebase Context

### Core Components
You are auditing **Volo**, a Sui Move suite including liquid staking (LST) and a multi-asset vault with external protocol adaptors:

**Liquid Staking (`liquid_staking/sources/*`)**
- Stake/unstake SUI for LST, fee configuration with bps caps, boosted balances, epoch rollover rewards, validator pool weights, pause flag, admin/operator caps, delegation, migration from volo_v1.

**Volo Vault (`volo-vault/sources/*`)**
- Vault object with share accounting, request buffers for deposits/withdrawals, fee caps, locking windows, loss tolerance per epoch, operation status gating, operator freeze map, reward manager + receipt alignment, oracle config, USD valuation tables, operation start/end.

**Adaptors & Health Limiter**
- Integrations for Cetus CLMM, Navi lending_core, Suilend, Momentum positions, receipt adaptor; health limiter enforcing Navi health factor; asset borrow/return via parse_key IDs.

**Local Dependencies**
- Switchboard on-demand oracle actions; MMT v3 math/AMM; protocol lending_core/ui/oracle/math/utils; suilend_d modules.

## CRITICAL INVARIANTS (Must Hold at All Times)

1. **Authorization & Enablement**
- Admin/operator caps enforced; pause and vault status gates (normal/during operation/disabled); operator freeze respected; migration/publish integrity.

2. **Staking & Vault Requests**
- Min stake amounts, ratio math, fee caps; request buffers; locking windows; cancel timeouts; receipt/vault ID alignment; expected_shares/expected_amount checks.

3. **Pricing & Funds**
- Fee caps enforced; share mint/burn consistency; loss_tolerance per epoch; total_usd_value correctness.

4. **Asset Custody & Operations**
- All borrowed DeFi assets returned; asset IDs/types match; operation start/end status toggles; op_value_update gating; tolerance reset.

5. **Oracle & Valuation**
- Switchboard price handling, decimal conversions (1e9/1e18), staleness checks (`assets_value_updated`), overflow/underflow bounds.

6. **External Integrations**
- Health-factor enforcement for Navi; adaptors for Cetus/Suilend/Momentum handle assets safely; no leakage of account caps/positions.

## ATTACK SURFACES

### 1. Staking & Requests
- `stake_entry`, `delegate_stake_entry`, `unstake` flows, epoch rollover, fee updates, pause toggles, validator weight updates.

### 2. Migration & Upgrades
- Migration from volo_v1, publish upgrades, admin/operator cap distribution.

### 3. Receipt & Vault Integrity
- Receipt issuance/matching, vault_id/receipt_id alignment, request buffers, reward manager interactions.

### 4. Config & Pricing
- Fee caps, tolerance, locking windows, status toggles, oracle config/value updates.

### 5. Operations & Adaptors
- Operation start/end with adaptors (Cetus/Navi/Suilend/Momentum/Receipt), asset borrow/return, health limiter checks.

## VULNERABILITY VALIDATION REQUIREMENTS

A finding is ONLY valid if it passes ALL checks:

### Impact Assessment (Must be Concrete)
- [ ] **Direct Fund Impact**: vault/LST fund theft, fee under/over-collection, misrouting of balances or rewards
- [ ] **Custody/Receipt Integrity**: unauthorized receipt/vault record corruption, wrong recipient, missing asset return
- [ ] **Security Integrity Impact**: authorization/pause/status/health-limiter bypass, loss_tolerance or value-update bypass
- [ ] **Operational Impact**: meaningful DoS via valid user actions (vault stuck in operation, requests locked, oracle dependence)

Impact must be real and measurable, not theoretical.

### Likelihood Assessment (Must be Practical)
- [ ] **Reachable Entry Point**: exploit starts from real public/entry callable flow
- [ ] **Feasible Preconditions**: attacker capabilities realistic for untrusted users
- [ ] **Execution Practicality**: steps executable under Move semantics and protocol checks
- [ ] **Economic Rationality**: attack cost and constraints do not make exploit non-viable

Likelihood must be realistic.

### Validation Checklist
Before reporting a vulnerability, verify:

1. [ ] Exact file/function/line references
2. [ ] Root cause clearly identified
3. [ ] End-to-end exploitation path
4. [ ] Existing checks shown insufficient
5. [ ] Realistic attack parameters and sequence
6. [ ] Concrete impact quantification
7. [ ] No reliance on trusted role compromise
8. [ ] No contradiction with Sui Move execution model

## AUDIT REPORT FORMAT

If a valid vulnerability is found (passes all checks), output this EXACT structure:

### Title
[Concise vulnerability title]

### Summary
[2-3 sentence summary of issue and consequence]

### Finding Description
[Technical details including:
- exact code location(s)
- root cause
- why protections fail
- relevant execution path]

### Impact Explanation
[Concrete impact:
- what harm occurs
- quantified value/protocol damage
- who is affected
- severity justification]

### Likelihood Explanation
[Realistic exploitability:
- attacker capabilities
- attack complexity
- feasibility conditions
- detection/operational constraints
- probability reasoning]

### Recommendation
[Actionable fix:
- exact code-level mitigation
- invariant checks to add
- test cases to prevent regression]

### Proof of Concept
[Reproducible exploit sequence:
- required initial state
- transaction steps
- expected vs actual result
- clear success condition]

## STRICT OUTPUT REQUIREMENT

After investigation:

IF a vulnerability passes ALL validation gates with clear evidence:
-> Output the complete audit report in the format above

IF no valid vulnerability exists:
-> Output exactly: ";
"#NoVulnerability found for this question.";
"

Do not output anything else.

## Investigation Guidelines

1. Start from entry functions reachable by untrusted users
2. Trace full state transitions and all side effects
3. Check math/rounding/decimal boundaries and extreme values
4. Check cross-module flows (stake_pool/manage/fee_config <-> validator_pool/volo_v1 <-> vault/request buffers <-> adaptors/oracle/health-limiter)
5. Validate enablement/auth/fee/locking/value-update checks end-to-end
6. Reject speculative findings lacking concrete exploit path

Remember: only report vulnerabilities with both valid impact and valid likelihood.

Begin investigation of: "].

Definition audit_format_text2 : string :=
  "
".

(** Fixed text of the f-string of [scan_format] (lines 741-867), cut at its
    replacement fields. *)
Definition scan_format_text0 : string :=
  "# VOLO PROTOCOL CROSS-PROTOCOL ANALOG SCAN PROMPT

## External Report To Map Into Volo
".

Definition scan_format_text1 : string :=
  "

## Objective
You are a senior protocol security researcher. Your job is to analyze the external report above and determine whether the **same vulnerability class** (not necessarily exact code pattern) can occur anywhere in Volo smart contracts.

You must deeply scan Volo logic across modules, execution paths, state transitions, and invariants.

## Volo Modules To Scan

- `liquid_staking` (stake_pool, manage, fee_config, validator_pool, volo_v1/*, migration)
- `volo-vault` (vault, manage, operation, user_entry, reward_manager, oracle, utils, vault_receipt_info, requests/*" +:+ ")
- `volo-vault/sources/adaptors` (cetus, suilend, navi, momentum, receipt)
- `volo-vault/health-limiter` (navi_limiter adaptor)
- `volo-vault/local_dependencies` (switchboard_sui/on_demand, mmt_v3, protocol lending_core/ui/oracle/math/utils, suilend_d)

## Core Scan Method

1. **Classify the external vuln type**
- authorization/pause/status/operator-cap bypass
- staking/vault request/accounting/locking/loss_tolerance violation
- pricing/fee/valuation underpayment or misdirection
- oracle or decimal conversion errors
- asset custody/return failure in operations/adaptors
- health-factor or risk-limit bypass
- denial of service through valid calls (vault stuck, request buffers locked, operation status never reset)

2. **Map to Volo analog surfaces**
- Identify equivalent trust boundaries and data-flow points in Volo modules
- Search for functionally similar logic, even if naming differs
- Check cross-module interactions, not just one file

3. **Trace full exploitability path**
- Real entry point (public/entry callable path)
- Preconditions attacker can realistically satisfy
- Step-by-step transition chain
- Why current checks fail
- Final broken invariant

4. **Validate impact + likelihood strictly**
- Must have concrete protocol impact
- Must have realistic trigger path
- No speculative or theoretical-only claims

## Critical Invariants To Test During Scan

- No unauthorized config/pause/status changes; operator freeze respected
- Min stake amounts, fee caps, share math, request buffer integrity, locking windows
- All borrowed DeFi assets returned; asset IDs/types consistent; operation status reset
- Oracle price correctness, decimal conversions (1e9/1e18), staleness control
- Health limiter enforced for risky borrowing; loss_tolerance not bypassed

## Disqualification Rules (Immediate #NoVulnerability)

Reject if ANY apply:

- Not reproducible through Volo public/entry flows
- Requires compromised admin/operator/developer/validator keys
- Depends on impossible Sui execution assumptions
- Only causes self-harm or non-protocol impact
- Has no concrete impact on funds, ownership/receipts, authorization, or critical availability
- Impact exists but no realistic likelihood
- Likelihood exists but no valid impact

## Required Decision Standard

A vulnerability is valid ONLY if BOTH are true:

1. **Valid Impact**
- Fund theft/drain or fee/valuation misrouting
- Unauthorized receipt/vault corruption or asset misappropriation
- Pricing/accounting/fee/loss_tolerance corruption
- Unauthorized config/pause/status/operator change
- High-confidence protocol DoS via valid calls

2. **Valid Likelihood**
- Reachable by untrusted actor
- Feasible preconditions
- Executable sequence under protocol rules
- Not blocked by existing checks

If either fails, it is invalid.

## Output Format (Strict)

If valid analog vulnerability is found in Volo, output full report in this exact structure:

### Title
[Concise vulnerability title]

### Summary
[2-3 sentence summary of mapped vulnerability and impact]

### Finding Description
[Detailed technical mapping from external report type to Volo:
- exact Volo file/function/line references
- root cause in Volo
- exploit path and why protections fail]

### Impact Explanation
[Concrete Volo impact and severity justification]

### Likelihood Explanation
[Realistic exploit feasibility in Volo context]

### Recommendation
[Specific code-level mitigation for Volo]

### Proof of Concept
[Reproducible Volo exploit steps with realistic state/inputs]

If no valid analog vulnerability is found, output exactly:
`#NoVulnerability found for this question.`

Do not output anything else.

## Additional Guidance

- Use the external report as a vulnerability-class hint, not as proof.
- Confirm with Volo-specific code logic only.
- Prefer false-negative over false-positive.
- A claim without executable exploit chain is invalid.

Begin deep analog scan now.
".

(** ** The module's globals and its import *)

Module Globals.

Record t : Type := mk {
  MAX_REPO : Z;
  SOURCE_REPO : string;
  REPO_NAME : string;
  run_number : string;
  BASE_URL : string;
  scope_files : list string
}.

End Globals.

(** [os.environ.get(key, default)]. *)
Definition environ_get (environ : gmap string string) (key default_value : string)
    : string :=
  default default_value (environ !! key).

(** Running the module body top to bottom, the imports of lines 1-4 taken to
    succeed.  An exception raised while [BASE_URL] is computed aborts the
    import: no namespace results.  (The names [run_index] and [repo_number],
    bound only on the mirror branch, are temporaries of that computation and
    are not kept here.) *)
Definition import_module {rt : Runtime} (environ : gmap string string)
    : result Globals.t :=
  let run_number := environ_get environ "GITHUB_RUN_NUMBER" "0" in
  base_url ← BASE_URL run_number;
  mret (Globals.mk MAX_REPO SOURCE_REPO REPO_NAME run_number base_url scope_files).

(** ** Function bodies: computations over the globals *)

Definition Py (A : Type) : Type := Globals.t -> A * Globals.t.

#[export] Instance Py_ret : MRet Py := fun A a g => (a, g).
#[export] Instance Py_bind : MBind Py := fun A B k m g =>
  let '(a, g') := m g in k a g'.

(** Reading a global name. *)
Definition load_global {A : Type} (name : Globals.t -> A) : Py A :=
  fun g => (name g, g).

(** ** The prompt builders *)

(** [question_generator] (lines 275-371). *)
Definition question_generator (target_file : string) : Py string :=
  let prompt :=
    question_generator_text0 +:+ target_file +:+
    question_generator_text1 +:+ target_file +:+
    question_generator_text2 +:+ target_file +:+
    question_generator_text3 +:+ target_file +:+
    question_generator_text4 +:+ target_file +:+
    question_generator_text5 +:+ target_file +:+
    question_generator_text6 in
  mret prompt.

(** [validation_format] (lines 374-551); the only builder that reads a
    global, [scope_files], which the f-string renders with [str]. *)
Definition validation_format (report : string) : Py string :=
  registry ← load_global Globals.scope_files;
  let prompt :=
    validation_format_text0 +:+ report +:+
    validation_format_text1 +:+ str_list registry +:+
    validation_format_text2 in
  mret prompt.

(** [audit_format] (lines 554-727). *)
Definition audit_format (security_question : string) : Py string :=
  let prompt :=
    audit_format_text0 +:+ security_question +:+
    audit_format_text1 +:+ security_question +:+
    audit_format_text2 in
  mret prompt.

(** [scan_format] (lines 730-869). *)
Definition scan_format (report : string) : Py string :=
  let prompt :=
    scan_format_text0 +:+ report +:+
    scan_format_text1 in
  mret prompt.

Definition builders : list (string -> Py string) :=
  [question_generator; validation_format; audit_format; scan_format].

(** ** Notions used to state the properties *)

(** [needle] occurs in [hay] as a contiguous run of characters. *)
Definition contains (needle hay : string) : Prop :=
  exists pre post, hay = pre +:+ needle +:+ post.

(** The decision procedure for [contains]: try every start position. *)
Fixpoint occurs (needle hay : string) : bool :=
  String.prefix needle hay ||
  match hay with
  | String _ hay' => occurs needle hay'
  | EmptyString => false
  end.

(** "Zero-padded to three digits", as the description words it: the
    hundreds, tens and units digit of the number.  To be compared with
    [format_03d], which is what the code calls. *)
Definition digit_char (d : Z) : ascii := ascii_of_nat (48 + Z.to_nat d).

Definition zero_pad3 (n : Z) : string :=
  String (digit_char (n / 100 mod 10))
    (String (digit_char (n / 10 mod 10))
      (String (digit_char (n mod 10)) EmptyString)).

(** Characters that [repr] copies when the quote is the single quote:
    printable ASCII other than the two quotes and the backslash. *)
Definition plain_char (c : ascii) : bool :=
  ((32 <=? ord c) && (ord c <? 127))%nat
  && negb (Ascii.eqb c "'") && negb (Ascii.eqb c dquote) && negb (Ascii.eqb c "\").

Fixpoint plain (s : string) : bool :=
  match s with
  | String c s' => plain_char c && plain s'
  | EmptyString => true
  end.

(** A prompt embeds the registry when the rendering of the list, as the
    f-string field [{scope_files}] produces it, occurs in the prompt. *)
Definition embeds_registry (g : Globals.t) (prompt : string) : Prop :=
  contains (str_list (Globals.scope_files g)) prompt.

(** The value a body returns when run in the namespace [g]. *)
Definition returned {A : Type} (body : Py A) (g : Globals.t) : A := fst (body g).



(** The registry is all a body takes from the namespace: two namespaces that
    bind [scope_files] to the same list give the same prompt, whatever run
    number and base URL they hold. *)
Definition reads_only_registry (builder : string -> Py string) : Prop :=
  forall (s : string) (g g' : Globals.t),
    Globals.scope_files g = Globals.scope_files g' ->
    returned (builder s) g = returned (builder s) g'.


(** A body that does not read the namespace returns the same value in any. *)
Definition ignores_globals (builder : string -> Py string) : Prop :=
  forall (s : string) (g g' : Globals.t), returned (builder s) g = returned (builder s) g'.

(** The environment variable the module reads. *)
Definition RUN_NUMBER_VAR : string := "GITHUB_RUN_NUMBER".

(** The namespace after an import with the variable unset. *)
Definition initial_globals : Globals.t :=
  Globals.mk MAX_REPO SOURCE_REPO REPO_NAME "0"
    "https://deepwiki.com/Sui-Volo/volo-smart-contracts" scope_files.

(** ** Further notions *)

(** The two kinds of URL the module resolves to. *)
Definition CANONICAL_URL : string := "https://deepwiki.com/Sui-Volo/volo-smart-contracts".

Definition MIRROR_URL (idx : Z) : string :=
  "https://deepwiki.com/grass-dev-pa/volo-smart-contracts-" +:+ zero_pad3 idx.

(** Texts of ASCII decimal digits, and the number such a text writes. *)
Definition is_digit (c : ascii) : bool := ((48 <=? ord c) && (ord c <=? 57))%nat.

Fixpoint all_digits (s : string) : bool :=
  match s with
  | String c s' => is_digit c && all_digits s'
  | EmptyString => true
  end.

Fixpoint digits_value (s : string) (acc : Z) : Z :=
  match s with
  | String c s' => digits_value s' (10 * acc + (Z.of_nat (ord c) - 48))
  | EmptyString => acc
  end.

(** Texts whose characters are all below 127, and texts of nothing but the
    six ASCII white-space characters. *)
Fixpoint ascii_text (s : string) : bool :=
  match s with
  | String c s' => (N_of_ascii c <? 127)%N && ascii_text s'
  | EmptyString => true
  end.

Fixpoint all_spaces (s : string) : bool :=
  match s with
  | String c s' => Py_ISSPACE c && all_spaces s'
  | EmptyString => true
  end.

(** The length of a text in UTF-8 bytes. *)
Definition byte_length (s : string) : Z := Z.of_nat (String.length s).

(** The answer the three judging prompts ask for when nothing is found. *)
Definition REJECTION_TOKEN : string := "#NoVulnerability found for this question.".

(** The block of paths that [scope_files] writes twice. *)
Definition scope_block : list string := firstn 121 scope_files.

Definition ends_with (suffix s : string) : bool :=
  let n := String.length s in
  let k := String.length suffix in
  (k <=? n)%nat && String.eqb (String.substring (n - k) k s) suffix.

(** * Properties *)

Section Properties.

Context {rt : Runtime}.

(** ** The cyclic index *)

Lemma py_mod_floor (a b : Z) : b <> 0 -> py_mod a b = Ok (a mod b).
Proof.
  intros Hb. unfold py_mod.
  destruct (Z.eqb_spec b 0) as [|_]; [contradiction|].
  pose proof (Z.quot_rem' a b) as Hqr.
  pose proof (Z.rem_bound_abs a b Hb) as Habs.
  set (r := Z.rem a b) in *.
  destruct (Z.ltb_spec r 0), (Z.ltb_spec 0 b), (Z.ltb_spec 0 r), (Z.ltb_spec b 0);
    cbn [andb orb]; f_equal;
    first [ apply Z.mod_unique with (q := a ÷ b - 1); lia
          | apply Z.mod_unique with (q := a ÷ b); lia ].
Qed.

Lemma py_mod_zero (a : Z) : py_mod a 0 = Raise ZeroDivisionError.
Proof. reflexivity. Qed.

Lemma get_cyclic_index_int (r m : Z) :
  m <> 0 -> get_cyclic_index (VInt r) m = Ok ((r - 1) mod m + 1).
Proof.
  intros Hm. unfold get_cyclic_index, int. cbn [mbind result_bind].
  rewrite (py_mod_floor (r - 1) m Hm). reflexivity.
Qed.

Lemma get_cyclic_index_str (s : string) (n m : Z) :
  PyLong_FromUnicodeObject s = Some n -> m <> 0 ->
  get_cyclic_index (VStr s) m = Ok ((n - 1) mod m + 1).
Proof.
  intros Hs Hm. unfold get_cyclic_index, int. rewrite Hs. cbn [mbind result_bind].
  rewrite (py_mod_floor (n - 1) m Hm). reflexivity.
Qed.

Lemma get_cyclic_index_malformed (s : string) (m : Z) :
  PyLong_FromUnicodeObject s = None -> get_cyclic_index (VStr s) m = Raise ValueError.
Proof.
  intros Hs. unfold get_cyclic_index, int. rewrite Hs. reflexivity.
Qed.

Lemma cyclic_range (n m : Z) : 1 <= m -> 1 <= (n - 1) mod m + 1 <= m.
Proof.
  intros Hm. pose proof (Z.mod_pos_bound (n - 1) m). lia.
Qed.

(** C3. For every integer [r >= 1] and bound [m >= 1],
    [get_cyclic_index(r, m)] returns [((r - 1) mod m) + 1], with [mod] the
    mathematical (floor) remainder; the value lies in [[1, m]]; and
    [get_cyclic_index(1, m)] is [1]. *)
Theorem get_cyclic_index_spec (r m : Z) :
  1 <= r -> 1 <= m ->
  get_cyclic_index (VInt r) m = Ok ((r - 1) mod m + 1)
  /\ 1 <= (r - 1) mod m + 1 <= m
  /\ get_cyclic_index (VInt 1) m = Ok 1.
Proof.
  intros _ Hm. split; [|split].
  - apply get_cyclic_index_int. lia.
  - apply cyclic_range. exact Hm.
  - rewrite get_cyclic_index_int by lia.
    replace (1 - 1) with 0 by lia. rewrite Z.mod_0_l by lia. reflexivity.
Qed.

(** C4. The cyclic index is periodic in the run number with period the
    bound: for [r >= 1] and [m >= 1], [get_cyclic_index(r, m)] and
    [get_cyclic_index(r + m, m)] return the same value; in particular
    [get_cyclic_index(m + 1, m)] is [1]. *)
Theorem get_cyclic_index_periodic (r m : Z) :
  1 <= r -> 1 <= m ->
  get_cyclic_index (VInt r) m = get_cyclic_index (VInt (r + m)) m
  /\ get_cyclic_index (VInt (m + 1)) m = Ok 1.
Proof.
  intros _ Hm. split.
  - rewrite !get_cyclic_index_int by lia. do 2 f_equal.
    replace (r + m - 1) with (r - 1 + 1 * m) by lia.
    symmetry. apply Z.mod_add. lia.
  - rewrite get_cyclic_index_int by lia.
    replace (m + 1 - 1) with m by lia. rewrite Z.mod_same by lia. reflexivity.
Qed.

(** ** The base URL *)

Lemma format_03d_table :
  forallb (fun k => String.eqb (format_03d (Z.of_nat k)) (zero_pad3 (Z.of_nat k)))
    (seq 0 1000) = true.
Proof. vm_compute. reflexivity. Qed.

(** On the numbers that fit three digits, the format the code uses writes
    exactly the three digits. *)
Lemma format_03d_zero_pad3 (n : Z) : 0 <= n <= 999 -> format_03d n = zero_pad3 n.
Proof.
  intros Hn.
  pose proof format_03d_table as Htable.
  rewrite forallb_forall in Htable.
  specialize (Htable (Z.to_nat n)).
  rewrite Z2Nat.id in Htable by lia.
  apply String.eqb_eq, Htable, in_seq. lia.
Qed.

Lemma BASE_URL_mirror (s : string) (n : Z) :
  s <> "0" -> PyLong_FromUnicodeObject s = Some n ->
  BASE_URL s =
    Ok ("https://deepwiki.com/grass-dev-pa/volo-smart-contracts-"
          +:+ format_03d ((n - 1) mod 30 + 1)).
Proof.
  intros Hs Hn. unfold BASE_URL.
  apply String.eqb_neq in Hs. rewrite Hs.
  rewrite (get_cyclic_index_str s n MAX_REPO Hn) by discriminate.
  reflexivity.
Qed.

Lemma BASE_URL_malformed (s : string) :
  s <> "0" -> PyLong_FromUnicodeObject s = None -> BASE_URL s = Raise ValueError.
Proof.
  intros Hs Hn. unfold BASE_URL.
  apply String.eqb_neq in Hs. rewrite Hs.
  rewrite (get_cyclic_index_malformed s MAX_REPO Hn). reflexivity.
Qed.

Lemma import_module_run_number (environ : gmap string string) (s : string) :
  environ !! RUN_NUMBER_VAR = Some s ->
  import_module environ =
    (base_url ← BASE_URL s;
     mret (Globals.mk MAX_REPO SOURCE_REPO REPO_NAME s base_url scope_files)).
Proof.
  intros Hs. unfold import_module, environ_get.
  change "GITHUB_RUN_NUMBER" with RUN_NUMBER_VAR. rewrite Hs. reflexivity.
Qed.

Lemma import_module_absent (environ : gmap string string) :
  environ !! RUN_NUMBER_VAR = None ->
  import_module environ =
    (base_url ← BASE_URL "0";
     mret (Globals.mk MAX_REPO SOURCE_REPO REPO_NAME "0" base_url scope_files)).
Proof.
  intros Hs. unfold import_module, environ_get.
  change "GITHUB_RUN_NUMBER" with RUN_NUMBER_VAR. rewrite Hs. reflexivity.
Qed.

(** Whenever the import succeeds, the registry it binds is the list literal. *)
Lemma import_module_scope_files (environ : gmap string string) (g : Globals.t) :
  import_module environ = Ok g -> Globals.scope_files g = scope_files.
Proof.
  unfold import_module.
  destruct (BASE_URL _) as [url|e]; cbn; intros H; [|discriminate].
  injection H as <-. reflexivity.
Qed.

(** C1. For every run-counter text other than ["0"] that [int] accepts,
    [BASE_URL] is the mirror URL
    ["https://deepwiki.com/grass-dev-pa/volo-smart-contracts-"] followed by
    the cyclic index of the run counter with bound 30, written with three
    digits; run counter ["31"] gives the URL ending in ["-001"] and ["30"]
    the one ending in ["-030"]. *)
Theorem BASE_URL_mirror_spec :
  (forall (s : string) (n : Z),
     s <> "0" -> PyLong_FromUnicodeObject s = Some n ->
     exists idx : Z,
       get_cyclic_index (VStr s) 30 = Ok idx
       /\ idx = (n - 1) mod 30 + 1
       /\ 1 <= idx <= 30
       /\ BASE_URL s =
            Ok ("https://deepwiki.com/grass-dev-pa/volo-smart-contracts-"
                  +:+ zero_pad3 idx))
  /\ BASE_URL "31" = Ok "https://deepwiki.com/grass-dev-pa/volo-smart-contracts-001"
  /\ BASE_URL "30" = Ok "https://deepwiki.com/grass-dev-pa/volo-smart-contracts-030".
Proof.
  split; [|split; vm_compute; reflexivity].
  intros s n Hs Hn. exists ((n - 1) mod 30 + 1).
  pose proof (cyclic_range n 30) as Hrange.
  split; [|split; [reflexivity|split; [lia|]]].
  - apply get_cyclic_index_str; [exact Hn | discriminate].
  - rewrite (BASE_URL_mirror s n Hs Hn).
    rewrite format_03d_zero_pad3; [reflexivity | lia].
Qed.

(** C2. When the run-counter text is the sentinel ["0"], which is also what
    the module reads when the variable is absent, [BASE_URL] is exactly
    ["https://deepwiki.com/Sui-Volo/volo-smart-contracts"]. *)
Theorem BASE_URL_canonical_spec :
  BASE_URL "0" = Ok "https://deepwiki.com/Sui-Volo/volo-smart-contracts"
  /\ forall environ : gmap string string,
       environ !! RUN_NUMBER_VAR = None \/ environ !! RUN_NUMBER_VAR = Some "0" ->
       exists g : Globals.t,
         import_module environ = Ok g
         /\ Globals.run_number g = "0"
         /\ Globals.BASE_URL g = "https://deepwiki.com/Sui-Volo/volo-smart-contracts".
Proof.
  split; [vm_compute; reflexivity|].
  intros environ [Habsent|Hzero].
  - rewrite (import_module_absent environ Habsent). cbn. eexists. repeat split.
  - rewrite (import_module_run_number environ "0" Hzero). cbn. eexists. repeat split.
Qed.

(** C5. For every run-counter text other than ["0"] that [int] rejects, the
    computation of [BASE_URL] raises [ValueError] (the description's
    [InvalidInput]); the exception leaves [get_cyclic_index] whatever the
    bound, and the import of the module: no namespace, hence no [BASE_URL],
    results, and no default is used in its place. *)
Theorem BASE_URL_invalid_input (s : string) :
  s <> "0" -> PyLong_FromUnicodeObject s = None ->
  (forall m : Z, get_cyclic_index (VStr s) m = Raise ValueError)
  /\ BASE_URL s = Raise ValueError
  /\ forall environ : gmap string string,
       environ !! RUN_NUMBER_VAR = Some s ->
       import_module environ = Raise ValueError.
Proof.
  intros Hs Hn. split; [|split].
  - intros m. apply get_cyclic_index_malformed. exact Hn.
  - apply BASE_URL_malformed; assumption.
  - intros environ Henv.
    rewrite (import_module_run_number environ s Henv).
    rewrite (BASE_URL_malformed s Hs Hn). reflexivity.
Qed.

(** C10. The sentinel test compares texts, not numbers: for every
    run-counter text other than exactly ["0"] that [int] reads as [0] (such
    as ["00"]), [BASE_URL] is not the canonical URL but the mirror URL
    ending in ["-030"], the cyclic index of [0] with bound 30 being [30]. *)
Theorem BASE_URL_zero_not_sentinel (s : string) :
  s <> "0" -> PyLong_FromUnicodeObject s = Some 0 ->
  get_cyclic_index (VStr s) 30 = Ok 30
  /\ BASE_URL s = Ok "https://deepwiki.com/grass-dev-pa/volo-smart-contracts-030"
  /\ BASE_URL s <> Ok "https://deepwiki.com/Sui-Volo/volo-smart-contracts".
Proof.
  intros Hs Hn.
  assert (Hurl : BASE_URL s =
                 Ok "https://deepwiki.com/grass-dev-pa/volo-smart-contracts-030")
    by (rewrite (BASE_URL_mirror s 0 Hs Hn); vm_compute; reflexivity).
  split; [|split].
  - rewrite (get_cyclic_index_str s 0 30 Hn) by discriminate. reflexivity.
  - exact Hurl.
  - rewrite Hurl. discriminate.
Qed.

(** ** Text containment *)

Lemma append_cons (x : ascii) (a b : string) : String x a +:+ b = String x (a +:+ b).
Proof. reflexivity. Qed.

Lemma append_empty_l (a : string) : "" +:+ a = a.
Proof. reflexivity. Qed.

Lemma append_assoc (a b c : string) : (a +:+ b) +:+ c = a +:+ b +:+ c.
Proof.
  induction a as [|x a IH]; [reflexivity|].
  rewrite !append_cons, IH. reflexivity.
Qed.

Lemma append_empty_r (a : string) : a +:+ "" = a.
Proof.
  induction a as [|x a IH]; [reflexivity|].
  rewrite append_cons, IH. reflexivity.
Qed.

Lemma contains_middle (pre s post : string) : contains s (pre +:+ s +:+ post).
Proof. exists pre, post. reflexivity. Qed.

Lemma contains_refl (s : string) : contains s s.
Proof. exists "", "". rewrite append_empty_l, append_empty_r. reflexivity. Qed.

Lemma contains_trans (a b c : string) : contains a b -> contains b c -> contains a c.
Proof.
  intros (p1 & q1 & ->) (p2 & q2 & ->).
  exists (p2 +:+ p1), (q1 +:+ q2). rewrite !append_assoc. reflexivity.
Qed.

Lemma contains_append_l (s x h : string) : contains s h -> contains s (x +:+ h).
Proof.
  intros (pre & post & ->). exists (x +:+ pre), post.
  rewrite append_assoc. reflexivity.
Qed.

Lemma contains_append_r (s h y : string) : contains s h -> contains s (h +:+ y).
Proof.
  intros (pre & post & ->). exists pre, (post +:+ y).
  rewrite !append_assoc. reflexivity.
Qed.

Lemma prefix_append (n post : string) : String.prefix n (n +:+ post) = true.
Proof.
  induction n as [|c n IH].
  - destruct post; reflexivity.
  - rewrite append_cons. cbn [String.prefix].
    destruct (ascii_dec c c) as [_|Hne]; [exact IH | contradiction].
Qed.

Lemma prefix_split (n h : string) :
  String.prefix n h = true -> exists post, h = n +:+ post.
Proof.
  revert h. induction n as [|c n IH]; intros h H.
  - exists h. reflexivity.
  - destruct h as [|d h]; cbn in H; [discriminate|].
    destruct (ascii_dec c d) as [->|_]; [|discriminate].
    destruct (IH h H) as [post ->]. exists post. reflexivity.
Qed.

Lemma occurs_unfold (n h : string) :
  occurs n h =
  String.prefix n h ||
  match h with String _ h' => occurs n h' | EmptyString => false end.
Proof. destruct h; reflexivity. Qed.

(** [occurs] decides [contains]. *)
Lemma occurs_contains (n h : string) : occurs n h = true <-> contains n h.
Proof.
  split.
  - induction h as [|c h IH]; rewrite occurs_unfold; intros H;
      apply orb_true_iff in H as [H|H]; try discriminate.
    + apply prefix_split in H as [post ->]. exists "", post. reflexivity.
    + apply prefix_split in H as [post ->]. exists "", post. reflexivity.
    + destruct (IH H) as (pre & post & ->). exists (String c pre), post. reflexivity.
  - intros (pre & post & ->).
    induction pre as [|c pre IH]; rewrite occurs_unfold.
    + rewrite append_empty_l, prefix_append. reflexivity.
    + rewrite append_cons, IH. apply orb_true_r.
Qed.

Lemma not_occurs_not_contains (n h : string) : occurs n h = false -> ~ contains n h.
Proof.
  intros Hf Hc. apply occurs_contains in Hc. rewrite Hf in Hc. discriminate.
Qed.

(** Every element of a joined list occurs in the result. *)
Lemma concat_contains (sep x : string) (l : list string) :
  In x l -> contains x (String.concat sep l).
Proof.
  induction l as [|y l IH]; [contradiction|].
  intros [->|Hin].
  - destruct l as [|z l]; [apply contains_refl|].
    exists "", (sep +:+ String.concat sep (z :: l)). reflexivity.
  - destruct l as [|z l]; [contradiction|].
    change (String.concat sep (y :: z :: l))
      with (y +:+ sep +:+ String.concat sep (z :: l)).
    apply contains_append_l, contains_append_l, IH, Hin.
Qed.

(** ** Rendering of the registry *)

Lemma plain_char_repr (c : ascii) :
  plain_char c = true ->
  repr_char "'" c = String c "" /\ Ascii.eqb "'" c = false /\ Ascii.eqb dquote c = false.
Proof.
  destruct c as [[] [] [] [] [] [] [] []]; vm_compute; intros H;
    first [ discriminate H | repeat split ].
Qed.

Lemma plain_repr_body (s : string) :
  plain s = true -> repr_body "'" s = s /\ has_char "'" s = false.
Proof.
  induction s as [|c s IH]; cbn [plain repr_body has_char]; [split; reflexivity|].
  intros H. apply andb_true_iff in H as [Hc Hs].
  destruct (plain_char_repr c Hc) as (-> & -> & _).
  destruct (IH Hs) as [-> ->]. split; reflexivity.
Qed.

(** A plain text is rendered between single quotes, unchanged. *)
Lemma repr_str_plain (s : string) : plain s = true -> repr_str s = "'" +:+ s +:+ "'".
Proof.
  intros H. destruct (plain_repr_body s H) as [Hbody Hquote].
  unfold repr_str. rewrite Hquote. cbn [andb]. rewrite Hbody. reflexivity.
Qed.

Lemma scope_files_plain : forallb plain scope_files = true.
Proof. vm_compute. reflexivity. Qed.

Lemma str_list_contains (l : list string) (p : string) :
  forallb plain l = true -> In p l -> contains p (str_list l).
Proof.
  intros Hplain Hin.
  rewrite forallb_forall in Hplain.
  apply contains_trans with (b := repr_str p).
  - rewrite (repr_str_plain p (Hplain p Hin)). apply contains_middle.
  - unfold str_list. apply contains_append_l, contains_append_r.
    apply concat_contains, in_map, Hin.
Qed.

(** ** Running the builders *)

Lemma question_generator_run (target_file : string) (g : Globals.t) :
  question_generator target_file g =
    (question_generator_text0 +:+ target_file +:+
     question_generator_text1 +:+ target_file +:+
     question_generator_text2 +:+ target_file +:+
     question_generator_text3 +:+ target_file +:+
     question_generator_text4 +:+ target_file +:+
     question_generator_text5 +:+ target_file +:+
     question_generator_text6, g).
Proof. reflexivity. Qed.

Lemma validation_format_run (report : string) (g : Globals.t) :
  validation_format report g =
    (validation_format_text0 +:+ report +:+
     validation_format_text1 +:+ str_list (Globals.scope_files g) +:+
     validation_format_text2, g).
Proof. reflexivity. Qed.

Lemma audit_format_run (security_question : string) (g : Globals.t) :
  audit_format security_question g =
    (audit_format_text0 +:+ security_question +:+
     audit_format_text1 +:+ security_question +:+
     audit_format_text2, g).
Proof. reflexivity. Qed.

Lemma scan_format_run (report : string) (g : Globals.t) :
  scan_format report g = (scan_format_text0 +:+ report +:+ scan_format_text1, g).
Proof. reflexivity. Qed.

Ltac run_builders :=
  unfold returned;
  rewrite ?question_generator_run, ?validation_format_run,
          ?audit_format_run, ?scan_format_run;
  cbn [fst snd].

(** ** The prompt builders *)

(** The namespace the import leaves when the variable is not set. *)
Lemma import_module_default : import_module ∅ = Ok initial_globals.
Proof. reflexivity. Qed.

(** C7. For every input text [s], the prompt [question_generator(s)]
    returns contains [s] verbatim, and so does the prompt
    [validation_format(s)] returns. *)
Theorem input_inserted_verbatim (s : string) (g : Globals.t) :
  contains s (returned (question_generator s) g)
  /\ contains s (returned (validation_format s) g).
Proof.
  split; run_builders; apply contains_middle.
Qed.

(** C8. In the namespace the import leaves, for every input text [s] the
    prompt [validation_format(s)] returns contains every path of the
    [scope_files] list. *)
Theorem validation_format_lists_registry
    (environ : gmap string string) (g : Globals.t) (s p : string) :
  import_module environ = Ok g ->
  In p scope_files ->
  contains p (returned (validation_format s) g).
Proof.
  intros Himport Hin. run_builders.
  rewrite (import_module_scope_files environ g Himport).
  do 3 apply contains_append_l. apply contains_append_r.
  apply str_list_contains; [exact scope_files_plain | exact Hin].
Qed.





(** Being stateless is not something every body of a builder's type is: a
    prompt that carried [BASE_URL] would change with the run number. *)
Lemma reads_only_registry_excludes_base_url :
  ~ reads_only_registry (fun _ : string => load_global Globals.BASE_URL).
Proof.
  intros H.
  specialize (H "" initial_globals
                (Globals.mk MAX_REPO SOURCE_REPO REPO_NAME "31" (MIRROR_URL 1) scope_files)
                eq_refl).
  vm_compute in H. discriminate H.
Qed.


(** C6, amended. Of the four builders only [validation_format] reads
    [scope_files]: for every input its prompt embeds the rendering of the
    registry.  [question_generator], [audit_format] and [scan_format] return
    the same prompt whatever the namespace holds. *)
Theorem registry_embedded_by_validation_format :
  (forall (s : string) (g : Globals.t),
     embeds_registry g (returned (validation_format s) g))
  /\ ignores_globals question_generator
  /\ ignores_globals audit_format
  /\ ignores_globals scan_format.
Proof.
  split; [|repeat split; intros s g g'; reflexivity].
  intros s g. unfold embeds_registry. run_builders.
  do 3 apply contains_append_l. apply contains_append_r, contains_refl.
Qed.

(** ** More on the cyclic index *)

Lemma int_VInt (n : Z) : int (VInt n) = Ok n.
Proof. reflexivity. Qed.

Lemma get_cyclic_index_zero_bound (x : pyval) (n : Z) :
  int x = Ok n -> get_cyclic_index x 0 = Raise ZeroDivisionError.
Proof.
  intros Hx. unfold get_cyclic_index. rewrite Hx. reflexivity.
Qed.

Lemma get_cyclic_index_ok (x : pyval) (n m : Z) :
  int x = Ok n -> m <> 0 -> get_cyclic_index x m = Ok ((n - 1) mod m + 1).
Proof.
  intros Hx Hm. unfold get_cyclic_index. rewrite Hx. cbn [mbind result_bind].
  rewrite (py_mod_floor (n - 1) m Hm). reflexivity.
Qed.

Lemma get_cyclic_index_raise (x : pyval) (e : exn) (m : Z) :
  int x = Raise e -> get_cyclic_index x m = Raise e.
Proof.
  intros Hx. unfold get_cyclic_index. rewrite Hx. reflexivity.
Qed.

(** Two run numbers have the same residue exactly when they differ by a
    multiple of the bound. *)
Lemma residue_eq_iff (a b m : Z) :
  m <> 0 -> (a mod m = b mod m <-> (a - b) mod m = 0).
Proof.
  intros Hm. split.
  - intros H. rewrite Zminus_mod, H, Z.sub_diag. apply Z.mod_0_l. exact Hm.
  - intros H. apply Z_div_exact_full_2 in H; [|exact Hm].
    replace a with (b + (a - b) / m * m) by lia.
    apply Z_mod_plus_full.
Qed.

(** X1. [get_cyclic_index] returns a value exactly when [int] accepts the
    run number and the bound is not zero.  A run number [int] rejects raises
    [ValueError] whatever the bound, zero included; an accepted one with
    bound zero raises [ZeroDivisionError]. *)
Theorem get_cyclic_index_outcomes (x : pyval) (m : Z) :
  (int x = Raise ValueError -> get_cyclic_index x m = Raise ValueError)
  /\ (forall n : Z, int x = Ok n -> m = 0 ->
        get_cyclic_index x m = Raise ZeroDivisionError)
  /\ ((exists idx : Z, get_cyclic_index x m = Ok idx)
      <-> (exists n : Z, int x = Ok n) /\ m <> 0).
Proof.
  split; [|split].
  - apply get_cyclic_index_raise.
  - intros n Hx ->. apply (get_cyclic_index_zero_bound x n Hx).
  - split.
    + intros [idx Hidx]. destruct (int x) as [n|e] eqn:Hx.
      * split; [exists n; reflexivity|]. intros ->.
        rewrite (get_cyclic_index_zero_bound x n Hx) in Hidx. discriminate.
      * rewrite (get_cyclic_index_raise x e m Hx) in Hidx. discriminate.
    + intros [[n Hx] Hm]. eexists. apply (get_cyclic_index_ok x n m Hx Hm).
Qed.

(** X2. For a bound [m >= 1] and every integer run number [r], zero and
    negative ones included, [get_cyclic_index(r, m)] is the one number of
    [[1, m]] that differs from [r] by a multiple of [m]; run number [0]
    gives [m]. *)
Theorem get_cyclic_index_any_integer (r m : Z) :
  1 <= m ->
  (exists idx : Z,
     get_cyclic_index (VInt r) m = Ok idx
     /\ 1 <= idx <= m
     /\ (idx - r) mod m = 0
     /\ forall j : Z, 1 <= j <= m -> (j - r) mod m = 0 -> j = idx)
  /\ get_cyclic_index (VInt 0) m = Ok m.
Proof.
  intros Hm. split.
  - exists ((r - 1) mod m + 1).
    pose proof (Z.mod_pos_bound (r - 1) m ltac:(lia)) as Hb.
    assert (Hcong : ((r - 1) mod m + 1 - r) mod m = 0).
    { replace ((r - 1) mod m + 1 - r) with ((r - 1) mod m - (r - 1)) by lia.
      rewrite Zminus_mod_idemp_l, Z.sub_diag. apply Z.mod_0_l. lia. }
    split; [apply get_cyclic_index_int; lia|].
    split; [lia|]. split; [exact Hcong|].
    intros j Hj Hjr.
    apply Z_div_exact_full_2 in Hjr; [|lia].
    apply Z_div_exact_full_2 in Hcong; [|lia].
    set (q := (j - r) / m) in *.
    set (q' := ((r - 1) mod m + 1 - r) / m) in *.
    assert (Hq : q = q') by nia.
    rewrite Hq in Hjr. lia.
  - rewrite get_cyclic_index_int by lia. f_equal.
    replace (0 - 1) with (-1) by lia.
    assert (H : m - 1 = -1 mod m) by (apply Z.mod_unique with (q := -1); lia).
    lia.
Qed.

(** X3. With a negative bound [m] the result is not "between 1 and
    [max_index]": it lies in [[m + 2, 1]]. *)
Theorem get_cyclic_index_negative_bound (r m : Z) :
  m < 0 ->
  exists idx : Z, get_cyclic_index (VInt r) m = Ok idx /\ m + 2 <= idx <= 1.
Proof.
  intros Hm. exists ((r - 1) mod m + 1).
  split; [apply get_cyclic_index_int; lia|].
  pose proof (Z.mod_neg_bound (r - 1) m Hm). lia.
Qed.

(** X4. With a bound [m >= 1], [get_cyclic_index] leaves the numbers of
    [[1, m]] as they are, and applying it to its own result changes nothing. *)
Theorem get_cyclic_index_fixed_points (m : Z) :
  1 <= m ->
  (forall r : Z, 1 <= r <= m -> get_cyclic_index (VInt r) m = Ok r)
  /\ (forall r idx : Z,
        get_cyclic_index (VInt r) m = Ok idx ->
        get_cyclic_index (VInt idx) m = Ok idx).
Proof.
  intros Hm.
  assert (Hfix : forall r : Z, 1 <= r <= m -> get_cyclic_index (VInt r) m = Ok r).
  { intros r Hr. rewrite get_cyclic_index_int by lia. f_equal.
    rewrite Z.mod_small by lia. lia. }
  split; [exact Hfix|].
  intros r idx Hidx. rewrite get_cyclic_index_int in Hidx by lia.
  injection Hidx as <-. apply Hfix, cyclic_range, Hm.
Qed.

(** X5. With a bound [m >= 1], the next run number takes the next index,
    and after index [m] comes index [1]. *)
Theorem get_cyclic_index_next (r m idx : Z) :
  1 <= m ->
  get_cyclic_index (VInt r) m = Ok idx ->
  get_cyclic_index (VInt (r + 1)) m = Ok (if idx =? m then 1 else idx + 1).
Proof.
  intros Hm Hidx. rewrite get_cyclic_index_int in * by lia.
  injection Hidx as <-. f_equal.
  pose proof (Z.mod_pos_bound (r - 1) m ltac:(lia)) as Hb.
  replace (r + 1 - 1) with (r - 1 + 1) by lia.
  rewrite <- Zplus_mod_idemp_l.
  destruct (Z.eqb_spec ((r - 1) mod m + 1) m) as [Heq|Hne].
  - rewrite Heq, Z.mod_same by lia. reflexivity.
  - rewrite Z.mod_small by lia. reflexivity.
Qed.

(** X6. With a bound [m >= 1], two run numbers get the same index exactly
    when they differ by a multiple of [m]. *)
Theorem get_cyclic_index_same_iff (r r' m : Z) :
  1 <= m ->
  (get_cyclic_index (VInt r) m = get_cyclic_index (VInt r') m
   <-> (r - r') mod m = 0).
Proof.
  intros Hm. rewrite !get_cyclic_index_int by lia.
  replace (r - r') with ((r - 1) - (r' - 1)) by lia.
  rewrite <- residue_eq_iff by lia.
  split.
  - intros H. injection H as H. lia.
  - intros ->. reflexivity.
Qed.

(** ** Texts that [int] reads *)

Lemma digit_char_facts (c : ascii) :
  is_digit c = true ->
  Py_ISSPACE c = false /\ Ascii.eqb c "+" = false /\ Ascii.eqb c "-" = false
  /\ Ascii.eqb c "_" = false /\ digit_value c = Some (Z.of_nat (ord c) - 48)
  /\ (N_of_ascii c <? 127)%N = true.
Proof.
  destruct c as [[] [] [] [] [] [] [] []]; vm_compute; intros H;
    first [ discriminate H | repeat split ].
Qed.

Lemma space_char_facts (c : ascii) :
  Py_ISSPACE c = true -> (N_of_ascii c <? 127)%N = true /\ is_digit c = false.
Proof.
  destruct c as [[] [] [] [] [] [] [] []]; vm_compute; intros H;
    first [ discriminate H | repeat split ].
Qed.

(** The first step of [int] leaves an ASCII text as it is. *)
Lemma transform_ascii (s : string) :
  ascii_text s = true -> transform_decimal_and_space (code_points s) = s.
Proof.
  unfold code_points. induction s as [|c s IH]; [reflexivity|].
  cbn [ascii_text]. intros H. apply andb_true_iff in H as [Hc Hs].
  assert (Hc' : (N_of_ascii c <? 128)%N = true)
    by (apply N.ltb_lt; apply N.ltb_lt in Hc; lia).
  cbn [code_points_from]. rewrite Hc'.
  cbn [transform_decimal_and_space]. rewrite Hc, ascii_N_embedding, (IH Hs).
  reflexivity.
Qed.

Lemma all_digits_ascii (s : string) : all_digits s = true -> ascii_text s = true.
Proof.
  induction s as [|c s IH]; [reflexivity|].
  cbn [all_digits ascii_text]. intros H. apply andb_true_iff in H as [Hc Hs].
  destruct (digit_char_facts c Hc) as (_ & _ & _ & _ & _ & ->). exact (IH Hs).
Qed.

Lemma all_spaces_ascii (s : string) : all_spaces s = true -> ascii_text s = true.
Proof.
  induction s as [|c s IH]; [reflexivity|].
  cbn [all_spaces ascii_text]. intros H. apply andb_true_iff in H as [Hc Hs].
  destruct (space_char_facts c Hc) as [-> _]. exact (IH Hs).
Qed.

Lemma skip_spaces_all_spaces (s : string) :
  all_spaces s = true -> skip_spaces s = "".
Proof.
  induction s as [|c s IH]; [reflexivity|].
  cbn [all_spaces skip_spaces]. intros H. apply andb_true_iff in H as [-> Hs].
  exact (IH Hs).
Qed.

Lemma scan_digits_all_digits (s : string) :
  all_digits s = true ->
  forall (digits : nat) (acc : Z),
    scan_digits s false digits acc
    = Some (digits_value s acc, (digits + String.length s)%nat, "").
Proof.
  induction s as [|c s IH]; intros H digits acc.
  - cbn. rewrite Nat.add_0_r. reflexivity.
  - cbn [all_digits] in H. apply andb_true_iff in H as [Hc Hs].
    destruct (digit_char_facts c Hc) as (_ & _ & _ & Hu & Hd & _).
    cbn [scan_digits digits_value String.length]. rewrite Hu, Hd, (IH Hs).
    rewrite Nat.add_succ_r. reflexivity.
Qed.

(** A non-empty text of digits is read as the number it writes, unless it
    has too many digits for the interpreter. *)
Lemma parse_digits (s : string) :
  all_digits s = true -> s <> "" ->
  PyLong_FromString s =
    if too_many_digits (String.length s) then None else Some (digits_value s 0).
Proof.
  intros H Hne. destruct s as [|c s]; [contradiction|].
  pose proof (scan_digits_all_digits _ H 0%nat 0) as Hscan.
  cbn [all_digits] in H. apply andb_true_iff in H as [Hc _].
  destruct (digit_char_facts c Hc) as (Hsp & Hplus & Hminus & Hu & _ & _).
  unfold PyLong_FromString.
  cbn [skip_spaces]. rewrite Hsp.
  cbn [take_sign]. rewrite Hplus, Hminus.
  cbn [starts_with_underscore]. rewrite Hu, Hscan.
  cbn [Nat.add]. destruct (too_many_digits _); reflexivity.
Qed.

(** The same after a minus sign. *)
Lemma parse_minus_digits (s : string) :
  all_digits s = true -> s <> "" ->
  PyLong_FromString (String "-" s) =
    if too_many_digits (String.length s) then None else Some (- digits_value s 0).
Proof.
  intros H Hne. destruct s as [|c s]; [contradiction|].
  pose proof (scan_digits_all_digits _ H 0%nat 0) as Hscan.
  cbn [all_digits] in H. apply andb_true_iff in H as [Hc _].
  destruct (digit_char_facts c Hc) as (_ & _ & _ & Hu & _ & _).
  unfold PyLong_FromString.
  change (skip_spaces (String "-" (String c s))) with (String "-" (String c s)).
  change (take_sign (String "-" (String c s))) with (true, String c s).
  cbn [starts_with_underscore]. rewrite Hu, Hscan.
  cbn [Nat.add]. destruct (too_many_digits _); reflexivity.
Qed.

Lemma few_digits (n : nat) : (n <= 640)%nat -> too_many_digits n = false.
Proof.
  intros Hn. unfold too_many_digits.
  destruct (Nat.ltb_spec 640 n) as [Hlt|_]; [lia | reflexivity].
Qed.

(** *** The decimal text of a number *)

Lemma digits_value_cons (c : ascii) (s : string) (acc : Z) :
  digits_value (String c s) acc = digits_value s (10 * acc + (Z.of_nat (ord c) - 48)).
Proof. reflexivity. Qed.

Ltac digit_constant :=
  match goal with
  | |- context [Z.of_nat (ord ?c)] =>
      let v := eval vm_compute in (Z.of_nat (ord c)) in
      change (Z.of_nat (ord c)) with v
  end.

Lemma digits_value_uint_acc (d : Decimal.uint) (acc : positive) :
  digits_value (NilEmpty.string_of_uint d) (Z.pos acc) = Z.pos (Pos.of_uint_acc d acc).
Proof.
  revert acc. induction d as [|d IH|d IH|d IH|d IH|d IH|d IH|d IH|d IH|d IH|d IH];
    intros acc; [reflexivity|..];
    cbn [NilEmpty.string_of_uint Pos.of_uint_acc];
    rewrite digits_value_cons, <- IH; f_equal; digit_constant; lia.
Qed.

Lemma digits_value_uint (d : Decimal.uint) :
  digits_value (NilEmpty.string_of_uint d) 0 = Z.of_N (Pos.of_uint d).
Proof.
  induction d as [|d IH|d IH|d IH|d IH|d IH|d IH|d IH|d IH|d IH|d IH];
    [reflexivity|..];
    cbn [NilEmpty.string_of_uint Pos.of_uint];
    rewrite digits_value_cons; digit_constant;
    first [ exact IH | apply digits_value_uint_acc ].
Qed.

Lemma all_digits_uint (d : Decimal.uint) :
  all_digits (NilEmpty.string_of_uint d) = true.
Proof.
  induction d as [|d IH|d IH|d IH|d IH|d IH|d IH|d IH|d IH|d IH|d IH];
    [reflexivity|..]; cbn [NilEmpty.string_of_uint all_digits]; exact IH.
Qed.

Lemma decimal_spec (n : Z) :
  0 <= n ->
  all_digits (decimal n) = true /\ decimal n <> "" /\ digits_value (decimal n) 0 = n.
Proof.
  intros Hn. unfold decimal.
  destruct (Z.to_N n) as [|p] eqn:Hp.
  - assert (n = 0) by lia. subst n.
    split; [reflexivity|]. split; [discriminate | reflexivity].
  - assert (Hz : n = Z.pos p) by lia.
    cbn [N.to_uint].
    pose proof (DecimalPos.Unsigned.to_uint_nonnil p) as Hnil.
    pose proof (DecimalPos.Unsigned.of_to p) as Hof.
    destruct (Pos.to_uint p) as [|d|d|d|d|d|d|d|d|d|d] eqn:Hd;
      [contradiction|..];
      (split; [apply all_digits_uint|]; split; [discriminate|];
       unfold NilZero.string_of_uint; rewrite digits_value_uint, Hof, Hz;
       reflexivity).
Qed.

(** [int(str(n))] gives [n] back for a natural number of at most 640
    digits. *)
Lemma int_decimal (n : Z) :
  0 <= n -> (String.length (decimal n) <= 640)%nat ->
  PyLong_FromUnicodeObject (decimal n) = Some n.
Proof.
  intros Hn Hlen. destruct (decimal_spec n Hn) as (Hd & Hne & Hv).
  unfold PyLong_FromUnicodeObject.
  rewrite (transform_ascii _ (all_digits_ascii _ Hd)).
  rewrite (parse_digits _ Hd Hne), (few_digits _ Hlen), Hv. reflexivity.
Qed.

Lemma decimal_not_sentinel (n : Z) : 1 <= n -> decimal n <> "0".
Proof.
  intros Hn H. destruct (decimal_spec n ltac:(lia)) as (_ & _ & Hv).
  rewrite H in Hv. vm_compute in Hv. lia.
Qed.

(** ** More on the base URL *)

Lemma Ok_inj {A : Type} (a b : A) : Ok a = Ok b -> a = b.
Proof. intros H. injection H as H. exact H. Qed.

Lemma below_1000 (P : Z -> bool) :
  forallb (fun k => P (Z.of_nat k)) (seq 0 1000) = true ->
  forall n : Z, 0 <= n <= 999 -> P n = true.
Proof.
  intros Htable n Hn. rewrite forallb_forall in Htable.
  specialize (Htable (Z.to_nat n)). rewrite Z2Nat.id in Htable by lia.
  apply Htable, in_seq. lia.
Qed.

Lemma zero_pad3_value (n : Z) : 0 <= n <= 999 -> digits_value (zero_pad3 n) 0 = n.
Proof.
  intros Hn.
  apply Z.eqb_eq, (below_1000 (fun k => digits_value (zero_pad3 k) 0 =? k)); [|exact Hn].
  vm_compute. reflexivity.
Qed.

Lemma decimal_short (n : Z) : 0 <= n <= 999 -> (String.length (decimal n) <= 640)%nat.
Proof.
  intros Hn.
  apply Nat.leb_le, (below_1000 (fun k => (String.length (decimal k) <=? 640)%nat));
    [|exact Hn].
  vm_compute. reflexivity.
Qed.

Lemma BASE_URL_mirror_url (s : string) (n : Z) :
  s <> "0" -> PyLong_FromUnicodeObject s = Some n ->
  BASE_URL s = Ok (MIRROR_URL ((n - 1) mod 30 + 1)).
Proof.
  intros Hs Hn. rewrite (BASE_URL_mirror s n Hs Hn).
  pose proof (cyclic_range n 30 ltac:(lia)).
  rewrite format_03d_zero_pad3 by lia. reflexivity.
Qed.

Lemma mirror_not_canonical (x : string) :
  "https://deepwiki.com/grass-dev-pa/volo-smart-contracts-" +:+ x <> CANONICAL_URL.
Proof. intros H. vm_compute in H. discriminate H. Qed.

Lemma MIRROR_URL_inj (a b : Z) :
  0 <= a <= 999 -> 0 <= b <= 999 -> MIRROR_URL a = MIRROR_URL b -> a = b.
Proof.
  intros Ha Hb H. unfold MIRROR_URL in H. apply String.app_inj in H.
  rewrite <- (zero_pad3_value a Ha), <- (zero_pad3_value b Hb), H. reflexivity.
Qed.

(** X7. A run number [k >= 1] written in decimal, as the variable holds it,
    of at most 640 digits: the import succeeds and [BASE_URL] is the mirror
    URL of index [((k - 1) mod 30) + 1]. *)
Theorem import_module_decimal_run_number
    (k : Z) (environ : gmap string string) :
  1 <= k ->
  (String.length (decimal k) <= 640)%nat ->
  environ !! RUN_NUMBER_VAR = Some (decimal k) ->
  exists g : Globals.t,
    import_module environ = Ok g
    /\ Globals.run_number g = decimal k
    /\ Globals.BASE_URL g = MIRROR_URL ((k - 1) mod 30 + 1).
Proof.
  intros Hk Hlen Henv.
  rewrite (import_module_run_number environ _ Henv).
  rewrite (BASE_URL_mirror_url (decimal k) k);
    [| apply decimal_not_sentinel; exact Hk | apply int_decimal; [lia | exact Hlen] ].
  eexists. repeat split.
Qed.

(** X8. A variable that is set but blank, empty or of white space only,
    does not fall back to the default: the import raises [ValueError]. *)
Theorem import_module_blank_run_number
    (s : string) (environ : gmap string string) :
  all_spaces s = true ->
  environ !! RUN_NUMBER_VAR = Some s ->
  BASE_URL s = Raise ValueError /\ import_module environ = Raise ValueError.
Proof.
  intros Hs Henv.
  assert (Hne : s <> "0") by (intros ->; discriminate Hs).
  assert (Hparse : PyLong_FromUnicodeObject s = None).
  { unfold PyLong_FromUnicodeObject.
    rewrite (transform_ascii _ (all_spaces_ascii _ Hs)).
    unfold PyLong_FromString. rewrite (skip_spaces_all_spaces _ Hs). reflexivity. }
  pose proof (BASE_URL_malformed s Hne Hparse) as Hurl.
  split; [exact Hurl|].
  rewrite (import_module_run_number environ s Henv), Hurl. reflexivity.
Qed.

(** X9. [BASE_URL] is the canonical URL for the text ["0"] and for no
    other text. *)
Theorem BASE_URL_canonical_iff (s : string) :
  BASE_URL s = Ok CANONICAL_URL <-> s = "0".
Proof.
  split.
  - intros H. destruct (String.eqb_spec s "0") as [Heq|Hne]; [exact Heq|].
    exfalso. destruct (PyLong_FromUnicodeObject s) as [n|] eqn:Hn.
    + rewrite (BASE_URL_mirror s n Hne Hn) in H. apply Ok_inj in H.
      exact (mirror_not_canonical _ H).
    + rewrite (BASE_URL_malformed s Hne Hn) in H. discriminate H.
  - intros ->. reflexivity.
Qed.

(** X10. Whatever the run-number text, computing [BASE_URL] ends in one of
    32 ways: [ValueError], the canonical URL, or one of the mirror URLs 001
    to 030 (never [ZeroDivisionError], never another index); and each of
    the thirty mirrors is the URL of the run number equal to its index. *)
Theorem BASE_URL_outcomes :
  (forall s : string,
     BASE_URL s = Raise ValueError
     \/ BASE_URL s = Ok CANONICAL_URL
     \/ exists idx : Z, 1 <= idx <= 30 /\ BASE_URL s = Ok (MIRROR_URL idx))
  /\ (forall idx : Z, 1 <= idx <= 30 -> BASE_URL (decimal idx) = Ok (MIRROR_URL idx)).
Proof.
  split.
  - intros s. destruct (String.eqb_spec s "0") as [->|Hne].
    + right. left. reflexivity.
    + destruct (PyLong_FromUnicodeObject s) as [n|] eqn:Hn.
      * right. right. exists ((n - 1) mod 30 + 1).
        split; [apply cyclic_range; lia | apply BASE_URL_mirror_url; assumption].
      * left. apply BASE_URL_malformed; assumption.
  - intros idx Hidx.
    rewrite (BASE_URL_mirror_url (decimal idx) idx);
      [| apply decimal_not_sentinel; lia
       | apply int_decimal; [lia | apply decimal_short; lia] ].
    rewrite Z.mod_small by lia. do 2 f_equal. lia.
Qed.

(** X11. Two run-number texts other than ["0"] that [int] accepts resolve
    to the same URL exactly when their numbers differ by a multiple of 30. *)
Theorem BASE_URL_same_iff (s s' : string) (n n' : Z) :
  s <> "0" -> s' <> "0" ->
  PyLong_FromUnicodeObject s = Some n ->
  PyLong_FromUnicodeObject s' = Some n' ->
  (BASE_URL s = BASE_URL s' <-> (n - n') mod 30 = 0).
Proof.
  intros Hs Hs' Hn Hn'.
  rewrite (BASE_URL_mirror_url s n Hs Hn), (BASE_URL_mirror_url s' n' Hs' Hn').
  pose proof (cyclic_range n 30 ltac:(lia)) as Hr.
  pose proof (cyclic_range n' 30 ltac:(lia)) as Hr'.
  replace (n - n') with ((n - 1) - (n' - 1)) by lia.
  rewrite <- residue_eq_iff by lia.
  split.
  - intros H. apply Ok_inj, MIRROR_URL_inj in H; lia.
  - intros ->. reflexivity.
Qed.

Lemma zeros_digits (k : nat) (d : string) :
  all_digits d = true ->
  all_digits (zeros k +:+ d) = true
  /\ digits_value (zeros k +:+ d) 0 = digits_value d 0
  /\ String.length (zeros k +:+ d) = (k + String.length d)%nat.
Proof.
  intros Hd. induction k as [|k (IH1 & IH2 & IH3)].
  - repeat split. exact Hd.
  - cbn [zeros]. rewrite append_cons.
    cbn [all_digits String.length]. rewrite digits_value_cons.
    split; [exact IH1|]. split; [|rewrite IH3; reflexivity].
    digit_constant. exact IH2.
Qed.

(** X12. What [format(n, "03d")] writes, [int] reads back: for every
    integer [n], negative ones included, whose text has at most 640
    characters, the text has at least three characters and [int] of it is
    [n]. *)
Theorem format_03d_round_trip (n : Z) :
  (String.length (format_03d n) <= 640)%nat ->
  (3 <= String.length (format_03d n))%nat
  /\ PyLong_FromUnicodeObject (format_03d n) = Some n.
Proof.
  unfold format_03d. intros Hlen.
  destruct (decimal_spec (Z.abs n) ltac:(lia)) as (Hd & Hne & Hv).
  set (d := decimal (Z.abs n)) in *.
  destruct (Z.ltb_spec n 0) as [Hneg|Hpos].
  - set (k := (3 - String.length "-" - String.length d)%nat) in *.
    destruct (zeros_digits k d Hd) as (Hall & Hval & Hl).
    change ("-" +:+ zeros k +:+ d) with (String "-" (zeros k +:+ d)) in *.
    cbn [String.length] in Hlen |- *. rewrite Hl in *.
    split; [subst k; cbn [String.length]; lia|].
    unfold PyLong_FromUnicodeObject. rewrite transform_ascii.
    + rewrite (parse_minus_digits _ Hall).
      * rewrite few_digits by lia. rewrite Hval, Hv. f_equal. lia.
      * destruct d; [contradiction|]. destruct k; discriminate.
    + cbn [ascii_text]. apply all_digits_ascii. exact Hall.
  - set (k := (3 - String.length "" - String.length d)%nat) in *.
    destruct (zeros_digits k d Hd) as (Hall & Hval & Hl).
    rewrite append_empty_l in *. rewrite Hl in *.
    split; [subst k; cbn [String.length]; lia|].
    unfold PyLong_FromUnicodeObject. rewrite (transform_ascii _ (all_digits_ascii _ Hall)).
    rewrite (parse_digits _ Hall).
    + rewrite few_digits by lia. rewrite Hval, Hv. f_equal. lia.
    + destruct d; [contradiction|]. destruct k; discriminate.
Qed.

(** ** More on the prompt builders *)

Lemma length_append (a b : string) :
  String.length (a +:+ b) = (String.length a + String.length b)%nat.
Proof.
  induction a as [|x a IH]; [reflexivity|].
  rewrite append_cons. cbn [String.length]. rewrite IH. reflexivity.
Qed.

Lemma byte_length_append (a b : string) :
  byte_length (a +:+ b) = byte_length a + byte_length b.
Proof. unfold byte_length. rewrite length_append. lia. Qed.

Lemma text_lengths :
  byte_length question_generator_text0 = 1335
  /\ byte_length question_generator_text1 = 45
  /\ byte_length question_generator_text2 = 2993
  /\ byte_length question_generator_text3 = 242
  /\ byte_length question_generator_text4 = 61
  /\ byte_length question_generator_text5 = 624
  /\ byte_length question_generator_text6 = 7
  /\ byte_length validation_format_text0 = 550
  /\ byte_length validation_format_text1 = 1166
  /\ byte_length validation_format_text2 = 6010
  /\ byte_length audit_format_text0 = 76
  /\ byte_length audit_format_text1 = 6207
  /\ byte_length audit_format_text2 = 1
  /\ byte_length scan_format_text0 = 87
  /\ byte_length scan_format_text1 = 4505
  /\ byte_length (str_list scope_files) = 17562.
Proof.
  repeat (split; [vm_compute; reflexivity|]). vm_compute. reflexivity.
Qed.

Ltac count_bytes :=
  unfold returned;
  rewrite ?question_generator_run, ?validation_format_run,
          ?audit_format_run, ?scan_format_run;
  cbn [fst snd];
  rewrite !byte_length_append;
  destruct text_lengths as
    (? & ? & ? & ? & ? & ? & ? & ? & ? & ? & ? & ? & ? & ? & ? & ?);
  repeat match goal with
         | H : byte_length _ = _ |- _ => rewrite ?H; clear H
         end.

Lemma question_generator_length (s : string) (g : Globals.t) :
  byte_length (returned (question_generator s) g) = 5307 + 6 * byte_length s.
Proof. count_bytes. lia. Qed.

Lemma validation_format_length (s : string) (g : Globals.t) :
  byte_length (returned (validation_format s) g)
  = 7726 + byte_length (str_list (Globals.scope_files g)) + byte_length s.
Proof. count_bytes. lia. Qed.

Lemma audit_format_length (s : string) (g : Globals.t) :
  byte_length (returned (audit_format s) g) = 6284 + 2 * byte_length s.
Proof. count_bytes. lia. Qed.

Lemma scan_format_length (s : string) (g : Globals.t) :
  byte_length (returned (scan_format s) g) = 4592 + byte_length s.
Proof. count_bytes. lia. Qed.

(** X13. How long the prompts are, in UTF-8 bytes: each is its fixed text
    plus one copy of the argument per replacement field, six in
    [question_generator], two in [audit_format], one in [scan_format] and
    in [validation_format], which also carries the rendering of the
    registry (17562 bytes for the list the import binds). *)
Theorem prompt_lengths (s : string) (g : Globals.t) :
  byte_length (returned (question_generator s) g) = 5307 + 6 * byte_length s
  /\ byte_length (returned (validation_format s) g)
     = 7726 + byte_length (str_list (Globals.scope_files g)) + byte_length s
  /\ byte_length (returned (validation_format s) initial_globals)
     = 25288 + byte_length s
  /\ byte_length (returned (audit_format s) g) = 6284 + 2 * byte_length s
  /\ byte_length (returned (scan_format s) g) = 4592 + byte_length s.
Proof.
  split; [apply question_generator_length|].
  split; [apply validation_format_length|].
  split; [|split; [apply audit_format_length | apply scan_format_length]].
  rewrite validation_format_length.
  change (Globals.scope_files initial_globals) with scope_files.
  destruct text_lengths as (_ & _ & _ & _ & _ & _ & _ & _ & _ & _ & _ & _ & _ & _ & _ & ->).
  lia.
Qed.

Lemma append_same_length_inj (a b x y : string) :
  a +:+ x = b +:+ y -> String.length a = String.length b -> a = b.
Proof.
  revert b. induction a as [|c a IH]; intros [|d b] H Hlen; try discriminate Hlen.
  - reflexivity.
  - rewrite !append_cons in H. injection H as -> H.
    cbn [String.length] in Hlen. f_equal. apply IH; [exact H | lia].
Qed.

(** X14. A prompt tells its argument: each builder, run in the same
    namespace on two different arguments, returns two different prompts. *)
Theorem builders_injective (s s' : string) (g : Globals.t) :
  (returned (question_generator s) g = returned (question_generator s') g -> s = s')
  /\ (returned (validation_format s) g = returned (validation_format s') g -> s = s')
  /\ (returned (audit_format s) g = returned (audit_format s') g -> s = s')
  /\ (returned (scan_format s) g = returned (scan_format s') g -> s = s').
Proof.
  repeat split; intros H.
  - pose proof (f_equal byte_length H) as Hlen.
    rewrite !question_generator_length in Hlen.
    unfold returned in H. rewrite !question_generator_run in H. cbn [fst] in H.
    apply String.app_inj in H.
    apply (append_same_length_inj _ _ _ _ H). unfold byte_length in Hlen. lia.
  - pose proof (f_equal byte_length H) as Hlen.
    rewrite !validation_format_length in Hlen.
    unfold returned in H. rewrite !validation_format_run in H. cbn [fst] in H.
    apply String.app_inj in H.
    apply (append_same_length_inj _ _ _ _ H). unfold byte_length in Hlen. lia.
  - pose proof (f_equal byte_length H) as Hlen.
    rewrite !audit_format_length in Hlen.
    unfold returned in H. rewrite !audit_format_run in H. cbn [fst] in H.
    apply String.app_inj in H.
    apply (append_same_length_inj _ _ _ _ H). unfold byte_length in Hlen. lia.
  - pose proof (f_equal byte_length H) as Hlen.
    rewrite !scan_format_length in Hlen.
    unfold returned in H. rewrite !scan_format_run in H. cbn [fst] in H.
    apply String.app_inj in H.
    apply (append_same_length_inj _ _ _ _ H). unfold byte_length in Hlen. lia.
Qed.

Lemma get_prefix (k : nat) (t x : string) :
  (k <? String.length t)%nat = true -> String.get k (t +:+ x) = String.get k t.
Proof.
  intros Hk. symmetry. apply String.append_correct1, Nat.ltb_lt, Hk.
Qed.

Ltac differ_at k :=
  let H := fresh "H" in
  intros H; unfold returned in H;
  rewrite ?question_generator_run, ?validation_format_run,
          ?audit_format_run, ?scan_format_run in H;
  cbn [fst] in H;
  apply (f_equal (String.get k)) in H;
  rewrite !get_prefix in H by (vm_compute; reflexivity);
  vm_compute in H; discriminate H.

(** X15. A prompt tells its builder: whatever the arguments and the
    namespaces, two different builders never return the same prompt. *)
Theorem builders_disjoint (s s' : string) (g g' : Globals.t) :
  returned (question_generator s) g <> returned (validation_format s') g'
  /\ returned (question_generator s) g <> returned (audit_format s') g'
  /\ returned (question_generator s) g <> returned (scan_format s') g'
  /\ returned (validation_format s) g <> returned (audit_format s') g'
  /\ returned (validation_format s) g <> returned (scan_format s') g'
  /\ returned (audit_format s) g <> returned (scan_format s') g'.
Proof.
  split; [differ_at 1%nat|].
  split; [differ_at 0%nat|].
  split; [differ_at 0%nat|].
  split; [differ_at 0%nat|].
  split; [differ_at 0%nat|].
  differ_at 16%nat.
Qed.

Lemma token_in_texts :
  occurs REJECTION_TOKEN validation_format_text2 = true
  /\ occurs REJECTION_TOKEN audit_format_text1 = true
  /\ occurs REJECTION_TOKEN scan_format_text1 = true.
Proof. repeat split; vm_compute; reflexivity. Qed.

(** X16. Whatever the argument, the three judging prompts,
    [validation_format], [audit_format] and [scan_format], spell out the
    same answer for "nothing found":
    ["#NoVulnerability found for this question."]. *)
Theorem judging_prompts_name_rejection_token (s : string) (g : Globals.t) :
  contains REJECTION_TOKEN (returned (validation_format s) g)
  /\ contains REJECTION_TOKEN (returned (audit_format s) g)
  /\ contains REJECTION_TOKEN (returned (scan_format s) g).
Proof.
  destruct token_in_texts as (Hv & Ha & Hs).
  apply occurs_contains in Hv, Ha, Hs.
  repeat split; run_builders.
  - do 4 apply contains_append_l. exact Hv.
  - do 2 apply contains_append_l. apply contains_append_r. exact Ha.
  - do 2 apply contains_append_l. exact Hs.
Qed.

(** ** The registry *)

Lemma scope_files_move :
  forallb (ends_with ".move") scope_files = true.
Proof. vm_compute. reflexivity. Qed.

(** X17. The registry is one block of 121 distinct paths written twice,
    242 entries in all, and every entry ends in [".move"]. *)
Theorem scope_files_shape :
  scope_files = scope_block ++ scope_block
  /\ List.length scope_block = 121%nat
  /\ NoDup scope_block
  /\ Forall (fun p => ends_with ".move" p = true) scope_files.
Proof.
  split; [vm_compute; reflexivity|].
  split; [vm_compute; reflexivity|].
  split.
  - apply (bool_decide_unpack _). vm_compute. reflexivity.
  - apply List.Forall_forall. intros p Hp.
    exact (proj1 (forallb_forall _ _) scope_files_move p Hp).
Qed.

End Properties.

(** * Concrete runs, on CPython 3.11 *)

#[local] Existing Instance cpython_3_11.

Lemma get_cyclic_index_spec_witness :
  get_cyclic_index (VInt 45) 30 = Ok ((45 - 1) mod 30 + 1)
  /\ 1 <= (45 - 1) mod 30 + 1 <= 30
  /\ get_cyclic_index (VInt 1) 30 = Ok 1.
Proof. apply (get_cyclic_index_spec 45 30); lia. Defined.

Lemma get_cyclic_index_periodic_witness :
  get_cyclic_index (VInt 7) 30 = get_cyclic_index (VInt (7 + 30)) 30
  /\ get_cyclic_index (VInt (30 + 1)) 30 = Ok 1.
Proof. apply (get_cyclic_index_periodic 7 30); lia. Defined.

Lemma BASE_URL_mirror_spec_witness :
  exists idx : Z,
    get_cyclic_index (VStr "45") 30 = Ok idx
    /\ idx = (45 - 1) mod 30 + 1
    /\ 1 <= idx <= 30
    /\ BASE_URL "45" =
         Ok ("https://deepwiki.com/grass-dev-pa/volo-smart-contracts-"
               +:+ zero_pad3 idx).
Proof.
  apply (proj1 BASE_URL_mirror_spec "45" 45).
  - discriminate.
  - vm_compute. reflexivity.
Defined.

Lemma BASE_URL_canonical_spec_witness :
  exists g : Globals.t,
    import_module ∅ = Ok g
    /\ Globals.run_number g = "0"
    /\ Globals.BASE_URL g = "https://deepwiki.com/Sui-Volo/volo-smart-contracts".
Proof.
  apply (proj2 BASE_URL_canonical_spec ∅). left. vm_compute. reflexivity.
Defined.

Lemma BASE_URL_invalid_input_witness :
  (forall m : Z, get_cyclic_index (VStr "12a") m = Raise ValueError)
  /\ BASE_URL "12a" = Raise ValueError
  /\ forall environ : gmap string string,
       environ !! RUN_NUMBER_VAR = Some "12a" ->
       import_module environ = Raise ValueError.
Proof.
  apply (BASE_URL_invalid_input "12a").
  - discriminate.
  - vm_compute. reflexivity.
Defined.

Lemma BASE_URL_zero_not_sentinel_witness :
  get_cyclic_index (VStr "00") 30 = Ok 30
  /\ BASE_URL "00" = Ok "https://deepwiki.com/grass-dev-pa/volo-smart-contracts-030"
  /\ BASE_URL "00" <> Ok "https://deepwiki.com/Sui-Volo/volo-smart-contracts".
Proof.
  apply (BASE_URL_zero_not_sentinel "00").
  - discriminate.
  - vm_compute. reflexivity.
Defined.

Lemma validation_format_lists_registry_witness :
  contains "liquid_staking/sources/manage.move"
    (returned (validation_format "report") initial_globals).
Proof.
  apply (validation_format_lists_registry ∅ initial_globals "report"
           "liquid_staking/sources/manage.move").
  - reflexivity.
  - right. left. reflexivity.
Defined.


(** C6, as stated, fails on the empty input.  In the namespace the import
    leaves, the prompts of [question_generator], [audit_format] and
    [scan_format] do not contain the rendering of [scope_files]; those of
    [audit_format] and [scan_format] contain not even one of its paths, and
    that of [question_generator] lacks, for one,
    ["liquid_staking/sources/cert.move"]. *)
Lemma builders_embed_registry_counterexample :
  import_module ∅ = Ok initial_globals
  /\ ~ embeds_registry initial_globals (returned (question_generator "") initial_globals)
  /\ ~ embeds_registry initial_globals (returned (audit_format "") initial_globals)
  /\ ~ embeds_registry initial_globals (returned (scan_format "") initial_globals)
  /\ (forall p : string, In p scope_files ->
        ~ contains p (returned (audit_format "") initial_globals))
  /\ (forall p : string, In p scope_files ->
        ~ contains p (returned (scan_format "") initial_globals))
  /\ ~ contains "liquid_staking/sources/cert.move"
         (returned (question_generator "") initial_globals).
Proof.
  assert (Hnone : forall out : string,
            forallb (fun p => negb (occurs p out)) scope_files = true ->
            forall p : string, In p scope_files -> ~ contains p out).
  { intros out Hall p Hin. rewrite forallb_forall in Hall.
    apply not_occurs_not_contains, negb_true_iff, Hall, Hin. }
  split; [reflexivity|].
  repeat split.
  1-3: apply not_occurs_not_contains; vm_compute; reflexivity.
  1-2: apply Hnone; vm_compute; reflexivity.
  apply not_occurs_not_contains; vm_compute; reflexivity.
Qed.

Lemma get_cyclic_index_any_integer_witness :
  (exists idx : Z,
     get_cyclic_index (VInt (-7)) 30 = Ok idx
     /\ 1 <= idx <= 30
     /\ (idx - -7) mod 30 = 0
     /\ forall j : Z, 1 <= j <= 30 -> (j - -7) mod 30 = 0 -> j = idx)
  /\ get_cyclic_index (VInt 0) 30 = Ok 30.
Proof. apply (get_cyclic_index_any_integer (-7) 30). lia. Defined.

Lemma get_cyclic_index_negative_bound_witness :
  exists idx : Z, get_cyclic_index (VInt 5) (-30) = Ok idx /\ -30 + 2 <= idx <= 1.
Proof. apply (get_cyclic_index_negative_bound 5 (-30)). lia. Defined.

Lemma get_cyclic_index_fixed_points_witness :
  (forall r : Z, 1 <= r <= 30 -> get_cyclic_index (VInt r) 30 = Ok r)
  /\ (forall r idx : Z,
        get_cyclic_index (VInt r) 30 = Ok idx ->
        get_cyclic_index (VInt idx) 30 = Ok idx).
Proof. apply (get_cyclic_index_fixed_points 30). lia. Defined.

Lemma get_cyclic_index_next_witness :
  get_cyclic_index (VInt (60 + 1)) 30 = Ok (if 30 =? 30 then 1 else 30 + 1).
Proof.
  apply (get_cyclic_index_next 60 30 30).
  - lia.
  - vm_compute. reflexivity.
Defined.

Lemma get_cyclic_index_same_iff_witness :
  get_cyclic_index (VInt 61) 30 = get_cyclic_index (VInt 1) 30
  <-> (61 - 1) mod 30 = 0.
Proof. apply (get_cyclic_index_same_iff 61 1 30). lia. Defined.

Lemma import_module_decimal_run_number_witness :
  exists g : Globals.t,
    import_module {[ "GITHUB_RUN_NUMBER" := "45" ]} = Ok g
    /\ Globals.run_number g = decimal 45
    /\ Globals.BASE_URL g = MIRROR_URL ((45 - 1) mod 30 + 1).
Proof.
  apply (import_module_decimal_run_number 45 {[ "GITHUB_RUN_NUMBER" := "45" ]}).
  - lia.
  - vm_compute. lia.
  - vm_compute. reflexivity.
Defined.

Lemma import_module_blank_run_number_witness :
  BASE_URL "" = Raise ValueError
  /\ import_module {[ "GITHUB_RUN_NUMBER" := "" ]} = Raise ValueError.
Proof.
  apply (import_module_blank_run_number "" {[ "GITHUB_RUN_NUMBER" := "" ]}).
  - reflexivity.
  - vm_compute. reflexivity.
Defined.

Lemma BASE_URL_same_iff_witness :
  BASE_URL "61" = BASE_URL "0001" <-> (61 - 1) mod 30 = 0.
Proof.
  apply (BASE_URL_same_iff "61" "0001" 61 1).
  - discriminate.
  - discriminate.
  - vm_compute. reflexivity.
  - vm_compute. reflexivity.
Defined.

Lemma format_03d_round_trip_witness :
  (3 <= String.length (format_03d (-7)))%nat
  /\ PyLong_FromUnicodeObject (format_03d (-7)) = Some (-7).
Proof.
  apply (format_03d_round_trip (-7)). vm_compute. lia.
Defined.
